(** * Cross-file definition crawler of the autocomplete feature

    A shallow embedding of [extensions/vscode/src/autocomplete/lsp.ts]:
    the cache key of the goto adapter ([gotoInputKey]), the per-node
    strategy ([getDefinitionsForNode]) and the snippet aggregator
    ([getDefinitionsFromLsp]).

    The TypeScript code is asynchronous and talks to three collaborators
    (syntax-tree provider, definition-resolution provider, file-content
    provider).  Here every collaborator is a transition on an abstract
    world [W] that either returns a value or throws, and the code is
    written in a state-and-exception monad.  Besides the world the monad
    carries the console (the warnings logged) and the list of
    collaborator calls made so far.

    Conventions.  Lines, columns and offsets are natural numbers.  A
    function parameter that the caller may leave out has an [option]
    type, [None] standing for [undefined].  The callbacks that [map]
    starts for [Promise.all] all run, in the order of the array, also
    when one of them fails.  What [lsp.ts] uses without defining it ([getAst],
    [getTreePathAtCursor], [executeGotoProvider], [crawlTypes],
    [findChildren], the two lists of node types) is a field of the record
    [Collaborators]. *)

From Stdlib Require Import String Ascii List Bool Arith Lia QArith DecimalString.
From Stdlib Require DecimalNat.
Import ListNotations.
Local Close Scope Q_scope.
Local Open Scope nat_scope.
Local Open Scope string_scope.
Local Open Scope list_scope.

(** ** JavaScript string operations used by the source

    Strings are sequences of 8-bit code units. *)
Module Js.

(** [s.split(sep)] for a one-character separator: never the empty array. *)
Fixpoint split (sep : ascii) (s : string) : list string :=
  match s with
  | EmptyString => [EmptyString]
  | String c rest =>
      if Ascii.eqb c sep then EmptyString :: split sep rest
      else match split sep rest with
           | [] => [String c EmptyString]
           | piece :: pieces => String c piece :: pieces
           end
  end.

Definition newline : ascii := ascii_of_nat 10.

(** The array returned by [s.split("\n")]. *)
Definition lines (s : string) : list string := split newline s.

(** White space and line terminators below code unit 256. *)
Definition isWhiteSpace (c : ascii) : bool :=
  let n := nat_of_ascii c in
  existsb (Nat.eqb n) [9; 10; 11; 12; 13; 32; 160].

Fixpoint trimStart (s : string) : string :=
  match s with
  | EmptyString => EmptyString
  | String c rest => if isWhiteSpace c then trimStart rest else s
  end.

Fixpoint trimEnd (s : string) : string :=
  match s with
  | EmptyString => EmptyString
  | String c rest =>
      match trimEnd rest with
      | EmptyString => if isWhiteSpace c then EmptyString else String c EmptyString
      | kept => String c kept
      end
  end.

(** [s.trim()] removes white space at both ends. *)
Definition trim (s : string) : string := trimEnd (trimStart s).

(** [s.slice(0, n)] for a non-negative index [n]. *)
Fixpoint slice0 (n : nat) (s : string) : string :=
  match n, s with
  | O, _ => EmptyString
  | S _, EmptyString => EmptyString
  | S m, String c rest => String c (slice0 m rest)
  end.

(** Conversion of a non-negative integer in a template literal. *)
Definition numberToString (n : nat) : string :=
  NilEmpty.string_of_uint (Nat.to_uint n).

(** What a template literal makes of the method [String.prototype.toString]
    itself (the function object, not a call of it): the text of a built-in
    function.  It does not depend on the string the method was read from. *)
Definition nativeToStringText : string :=
  "function toString() { [native code] }".

(** What can be thrown. *)
Inductive Error : Type :=
| TypeError (message : string)
| Failure (message : string).

End Js.

(** ** Data model *)

Module Position.
Record t : Type := mk { line : nat; character : nat }.
End Position.

Module Range.
Record t : Type := mk { start : Position.t; end_ : Position.t }.
End Range.

Module RangeInFile.
Record t : Type := mk { filepath : string; range : Range.t }.
End RangeInFile.

Module RangeInFileWithContents.
Record t : Type := mk { filepath : string; range : Range.t; contents : string }.
End RangeInFileWithContents.

Module AutocompleteSnippet.
Record t : Type :=
  mk { filepath : string; range : Range.t; contents : string; score : Q }.
End AutocompleteSnippet.

(** [{ ...rif, contents }] *)
Definition withContents (rif : RangeInFile.t) (contents : string)
  : RangeInFileWithContents.t :=
  RangeInFileWithContents.mk (RangeInFile.filepath rif) (RangeInFile.range rif) contents.

(** [{ ...result, score }] *)
Definition withScore (result : RangeInFileWithContents.t) (score : Q)
  : AutocompleteSnippet.t :=
  AutocompleteSnippet.mk (RangeInFileWithContents.filepath result)
    (RangeInFileWithContents.range result)
    (RangeInFileWithContents.contents result) score.

(** The positions and ranges of the editor API, built from their parts. *)
Definition vscode_Position (line character : nat) : Position.t :=
  Position.mk line character.
Definition vscode_Range (start end_ : Position.t) : Range.t :=
  Range.mk start end_.

(** Syntax nodes of the external parser (read only). *)
Module Point.
Record t : Type := mk { row : nat; column : nat }.
End Point.

#[local] Unset Elimination Schemes.
Inductive SyntaxNode : Type :=
  mkSyntaxNode (type : string) (startPosition endPosition : Point.t)
               (startIndex : nat) (text : string) (children : list SyntaxNode).
#[local] Set Elimination Schemes.

Module Node.
Definition type (n : SyntaxNode) : string :=
  let 'mkSyntaxNode ty _ _ _ _ _ := n in ty.
Definition startPosition (n : SyntaxNode) : Point.t :=
  let 'mkSyntaxNode _ p _ _ _ _ := n in p.
Definition endPosition (n : SyntaxNode) : Point.t :=
  let 'mkSyntaxNode _ _ p _ _ _ := n in p.
Definition startIndex (n : SyntaxNode) : nat :=
  let 'mkSyntaxNode _ _ _ i _ _ := n in i.
Definition text (n : SyntaxNode) : string :=
  let 'mkSyntaxNode _ _ _ _ t _ := n in t.
Definition children (n : SyntaxNode) : list SyntaxNode :=
  let 'mkSyntaxNode _ _ _ _ _ cs := n in cs.
End Node.

Module Tree.
Record t : Type := mk { rootNode : SyntaxNode }.
End Tree.

Module AutocompleteLanguageInfo.
Record t : Type := mk { singleLineComment : string }.
End AutocompleteLanguageInfo.

(** ** The goto adapter's query and its cache key *)

Inductive GotoProviderName : Type :=
| executeDefinitionProvider
| executeTypeDefinitionProvider
| executeDeclarationProvider
| executeImplementationProvider
| executeReferenceProvider.

Definition providerNameText (name : GotoProviderName) : string :=
  match name with
  | executeDefinitionProvider => "vscode.executeDefinitionProvider"
  | executeTypeDefinitionProvider => "vscode.executeTypeDefinitionProvider"
  | executeDeclarationProvider => "vscode.executeDeclarationProvider"
  | executeImplementationProvider => "vscode.executeImplementationProvider"
  | executeReferenceProvider => "vscode.executeReferenceProvider"
  end.

Module GotoInput.
Record t : Type :=
  mk { uri : string; line : nat; character : nat; name : GotoProviderName }.
End GotoInput.

(** [`${input.name}${input.uri.toString}${input.line}${input.character}`]:
    the second hole holds the method [toString] of the uri, which is not
    called, and nothing separates the holes. *)
Definition gotoInputKey (input : GotoInput.t) : string :=
  providerNameText (GotoInput.name input)
  ++ Js.nativeToStringText
  ++ Js.numberToString (GotoInput.line input)
  ++ Js.numberToString (GotoInput.character input).

(** ** Collaborators and the monad of the crawler *)

(** How an awaited call ends. *)
Inductive Completion (A : Type) : Type :=
| Returned (value : A)
| Thrown (error : Js.Error).
Arguments Returned {A} value.
Arguments Thrown {A} error.

(** The collaborator calls the crawler makes, in the order it makes them. *)
Inductive Call : Type :=
| CallGetAst (filepath contents : string)
| CallGetTreePathAtCursor (cursorIndex : nat)
| CallExecuteGotoProvider (input : GotoInput.t)
| CallCrawlTypes (definition : RangeInFileWithContents.t)
| CallReadRangeInFile (filepath : string) (range : Range.t)
                      (outcome : Completion string).

(** The calls that reach the definition-resolution provider. *)
Definition isResolutionCall (c : Call) : bool :=
  match c with
  | CallExecuteGotoProvider _ | CallCrawlTypes _ => true
  | _ => false
  end.

Section Crawler.

(** State of everything outside the crawler: files, language server,
    the adapter's cache. *)
Context {W : Type}.

(** The file-content provider, [ide.readRangeInFile]. *)
Record IDE : Type :=
  { readRangeInFile : string -> Range.t -> W -> Completion string * W }.

(** What [lsp.ts] imports or expects in scope.  [getAst] and
    [getTreePathAtCursor] are the syntax-tree provider;
    [executeGotoProvider] is the goto adapter; [crawlTypes] is the type
    crawler; [findChildren] searches a syntax tree for the first nodes
    that satisfy a predicate; the two lists hold the node types of
    function declarations and of their bodies. *)
Record Collaborators : Type :=
  { getAst : string -> string -> W -> Completion (option Tree.t) * W;
    getTreePathAtCursor :
      Tree.t -> nat -> W -> Completion (option (list SyntaxNode)) * W;
    executeGotoProvider :
      GotoInput.t -> W -> Completion (list RangeInFile.t) * W;
    crawlTypes :
      RangeInFileWithContents.t -> IDE -> W ->
      Completion (list RangeInFileWithContents.t) * W;
    findChildren : SyntaxNode -> (SyntaxNode -> bool) -> nat -> list SyntaxNode;
    FUNCTION_DECLARATION_NODE_TYPEs : list string;
    FUNCTION_BLOCK_NODE_TYPES : list string }.

Record Run : Type :=
  mkRun { world : W;
          console : list (string * Js.Error);
          calls : list Call }.

Definition M (A : Type) : Type := Run -> Completion A * Run.

Definition ret {A} (a : A) : M A := fun r => (Returned a, r).

Definition bind {A B} (m : M A) (k : A -> M B) : M B :=
  fun r =>
    match m r with
    | (Returned a, r') => k a r'
    | (Thrown e, r') => (Thrown e, r')
    end.

Definition throw {A} (e : Js.Error) : M A := fun r => (Thrown e, r).

(** [try { body } catch (e) { handler e }] *)
Definition tryCatch {A} (body : M A) (handler : Js.Error -> M A) : M A :=
  fun r =>
    match body r with
    | (Returned a, r') => (Returned a, r')
    | (Thrown e, r') => handler e r'
    end.

(** [console.warn(message, e)] *)
Definition console_warn (message : string) (e : Js.Error) : M unit :=
  fun r => (Returned tt, mkRun (world r) (console r ++ [(message, e)]) (calls r)).

(** An awaited collaborator call: the world moves on and the call is
    recorded. *)
Definition await {A} (record : Completion A -> Call)
           (call : W -> Completion A * W) : M A :=
  fun r =>
    let '(outcome, w) := call (world r) in
    (outcome, mkRun w (console r) (calls r ++ [record outcome])).

(** Reading a property of a parameter that may not have been passed. *)
Definition member {A} (object : option A) (property : string) : M A :=
  match object with
  | Some o => ret o
  | None =>
      throw (Js.TypeError
               ("Cannot read properties of undefined (reading '"
                  ++ property ++ "')"))
  end.

(** [await Promise.all(items.map(async (x) => f x))].  [map] starts every
    callback, in the order of the array, before anything is awaited, and
    a callback that has been started runs to its end: every callback
    runs, also after one of them has failed.  The result is the list of
    all values or, when some callback fails, the first failure in the
    order of the array. *)
Fixpoint promiseAll {A B} (f : A -> M B) (items : list A) : M (list B) :=
  match items with
  | [] => ret []
  | x :: rest =>
      fun r =>
        match f x r with
        | (Returned y, r1) => bind (promiseAll f rest) (fun ys => ret (y :: ys)) r1
        | (Thrown e, r1) => (Thrown e, snd (promiseAll f rest r1))
        end
  end.

End Crawler.

Arguments IDE : clear implicits.
Arguments Collaborators : clear implicits.
Arguments Run : clear implicits.
Arguments M : clear implicits.

Declare Scope crawler_scope.
Delimit Scope crawler_scope with crawler.
Notation "x <- m ;; k" := (bind m (fun x => k))
  (at level 61, m at next level, right associativity) : crawler_scope.
Notation "m ;;; k" := (bind m (fun _ => k))
  (at level 61, right associativity) : crawler_scope.

(** ** The per-node strategy and the aggregator *)

Section Lsp.

Context {W : Type} (env : Collaborators W).
Local Open Scope crawler_scope.

Definition awaitGetAst (filepath contents : string) : M W (option Tree.t) :=
  await (fun _ => CallGetAst filepath contents) (getAst env filepath contents).

Definition awaitGetTreePathAtCursor (ast : Tree.t) (cursorIndex : nat)
  : M W (option (list SyntaxNode)) :=
  await (fun _ => CallGetTreePathAtCursor cursorIndex)
        (getTreePathAtCursor env ast cursorIndex).

Definition awaitExecuteGotoProvider (input : GotoInput.t)
  : M W (list RangeInFile.t) :=
  await (fun _ => CallExecuteGotoProvider input) (executeGotoProvider env input).

Definition awaitCrawlTypes (definition : RangeInFileWithContents.t) (ide : IDE W)
  : M W (list RangeInFileWithContents.t) :=
  await (fun _ => CallCrawlTypes definition) (crawlTypes env definition ide).

Definition awaitReadRangeInFile (ide : IDE W) (filepath : string) (range : Range.t)
  : M W string :=
  await (CallReadRangeInFile filepath range) (readRangeInFile ide filepath range).

(** [(node) => FUNCTION_DECLARATION_NODE_TYPEs.includes(node.type)] *)
Definition isFunctionDeclaration (node : SyntaxNode) : bool :=
  existsb (String.eqb (Node.type node)) (FUNCTION_DECLARATION_NODE_TYPEs env).

(** [(node) => FUNCTION_BLOCK_NODE_TYPES.includes(node.type)] *)
Definition isFunctionBlock (node : SyntaxNode) : bool :=
  existsb (String.eqb (Node.type node)) (FUNCTION_BLOCK_NODE_TYPES env).

(** Lines 51-70: the text up to the body of the first function
    declaration, when the fragment parses and both nodes are found
    (the flag [truncated] is then set). *)
Definition signatureOf (funRootAst : option Tree.t) : option string :=
  match funRootAst with
  | None => None
  | Some ast =>
      match findChildren env (Tree.rootNode ast) isFunctionDeclaration 1 with
      | [] => None
      | funNode :: _ =>
          match findChildren env funNode isFunctionBlock 1 with
          | [] => None
          | statementBlockNode :: _ =>
              Some (Js.trim
                      (Js.slice0 (Node.startIndex statementBlockNode)
                                 (Node.text (Tree.rootNode ast))))
          end
      end
  end.

(** Lines 47-74: [funcText] as it is handed to the type crawler. *)
Definition funcTextFor (ide : IDE W) (funDef : RangeInFile.t) : M W string :=
  funcText <- awaitReadRangeInFile ide (RangeInFile.filepath funDef)
                                   (RangeInFile.range funDef) ;;
  if Nat.ltb 15 (List.length (Js.lines funcText)) then
    funRootAst <- awaitGetAst (RangeInFile.filepath funDef) funcText ;;
    match signatureOf funRootAst with
    | Some signature => ret signature
    | None => ret (hd EmptyString (Js.lines funcText))
    end
  else ret funcText.

(** An element of [ranges], of type [RangeInFile | RangeInFileWithContents],
    seen as a location. *)
Definition asRangeInFile (rif : RangeInFile.t + RangeInFileWithContents.t)
  : RangeInFile.t :=
  match rif with
  | inl bare => bare
  | inr rifc =>
      RangeInFile.mk (RangeInFileWithContents.filepath rifc)
                     (RangeInFileWithContents.range rifc)
  end.

(** Modelled from the spec: [isRifWithContents], which [lsp.ts] calls but
    does not define.  It is the type guard that tells a result with
    materialized contents from a bare location; on success it gives the
    element at its narrowed type. *)
Definition isRifWithContents (rif : RangeInFile.t + RangeInFileWithContents.t)
  : option RangeInFileWithContents.t :=
  match rif with
  | inl _ => None
  | inr rifc => Some rifc
  end.

(** Lines 132-140: the callback of the final [ranges.map]. *)
Definition materialize (ide : option (IDE W))
           (rif : RangeInFile.t + RangeInFileWithContents.t)
  : M W RangeInFileWithContents.t :=
  match isRifWithContents rif with
  | None =>
      ide' <- member ide "readRangeInFile" ;;
      contents <- awaitReadRangeInFile ide'
                    (RangeInFile.filepath (asRangeInFile rif))
                    (RangeInFile.range (asRangeInFile rif)) ;;
      ret (withContents (asRangeInFile rif) contents)
  | Some rifc => ret rifc
  end.

(** [definitions.filter(Boolean)]: every object is truthy. *)
Definition truthy (rif : RangeInFileWithContents.t) : bool := true.

(** [getDefinitionsForNode(uri, node, ide, lang)].  A parameter the
    caller leaves out is [undefined], here [None]; reading a property
    of it throws a [TypeError]. *)
Definition getDefinitionsForNode (uri : string) (node : SyntaxNode)
           (ide : option (IDE W)) (lang : option AutocompleteLanguageInfo.t)
  : M W (list RangeInFileWithContents.t) :=
  if String.eqb (Node.type node) "call_expression" then
    (* function call -> function definition *)
    gotoResult <- awaitExecuteGotoProvider
                    (GotoInput.mk uri
                       (Point.row (Node.startPosition node))
                       (Point.column (Node.startPosition node))
                       executeDefinitionProvider) ;;
    match gotoResult with
    | [] => ret []
    | funDef :: _ =>
        ide' <- member ide "readRangeInFile" ;;
        funcText <- funcTextFor ide' funDef ;;
        typeDefs <- awaitCrawlTypes (withContents funDef funcText) ide' ;;
        promiseAll (materialize ide) (inl funDef :: map inr typeDefs)
    end
  else if String.eqb (Node.type node) "variable_declarator" then
    promiseAll (materialize ide) []
  else if String.eqb (Node.type node) "impl_item" then
    promiseAll (materialize ide) []
  else if String.eqb (Node.type node) "new_expression" then
    (* In 'new MyClass(...)', "MyClass" is the classNameNode *)
    let classNameNode :=
      find (fun child => String.eqb (Node.type child) "identifier")
           (Node.children node) in
    let target := match classNameNode with Some c => c | None => node end in
    gotoResult <- awaitExecuteGotoProvider
                    (GotoInput.mk uri
                       (Point.row (Node.endPosition target))
                       (Point.column (Node.endPosition target))
                       executeDefinitionProvider) ;;
    match gotoResult with
    | [] => promiseAll (materialize ide) []
    | classDef :: _ =>
        ide' <- member ide "readRangeInFile" ;;
        contents <- awaitReadRangeInFile ide' (RangeInFile.filepath classDef)
                                         (RangeInFile.range classDef) ;;
        comment <-
          match classNameNode with
          | None => ret EmptyString
          | Some c =>
              if String.eqb (Node.text c) EmptyString then ret EmptyString
              else
                lang' <- member lang "singleLineComment" ;;
                ret (AutocompleteLanguageInfo.singleLineComment lang'
                       ++ " " ++ Node.text c ++ ":"
                       ++ String Js.newline EmptyString)%string
          end ;;
        let first := withContents classDef (comment ++ Js.trim contents)%string in
        definitions <- awaitCrawlTypes (withContents classDef contents) ide' ;;
        promiseAll (materialize ide)
                   (inr first :: map inr (filter truthy definitions))
    end
  else
    promiseAll (materialize ide) [].

(** Lines 168-183: the callback of [definitions.map] in the aggregator. *)
Definition reread (ide : IDE W) (def : RangeInFileWithContents.t)
  : M W RangeInFileWithContents.t :=
  contents <- awaitReadRangeInFile ide
                (RangeInFileWithContents.filepath def)
                (vscode_Range
                   (vscode_Position
                      (Position.line (Range.start (RangeInFileWithContents.range def)))
                      (Position.character (Range.start (RangeInFileWithContents.range def))))
                   (vscode_Position
                      (Position.line (Range.end_ (RangeInFileWithContents.range def)))
                      (Position.character (Range.end_ (RangeInFileWithContents.range def))))) ;;
  ret (RangeInFileWithContents.mk (RangeInFileWithContents.filepath def)
                                  (RangeInFileWithContents.range def) contents).

(** Line 165: the strategy as the aggregator calls it, with the uri and
    the node only. *)
Definition strategyAsCalled (uri : string) (node : SyntaxNode)
  : M W (list RangeInFileWithContents.t) :=
  getDefinitionsForNode uri node None None.

(** Lines 164-186: the loop over the reversed path, for any way of
    calling the strategy. *)
Fixpoint forEachNodeWith
         (strategy : string -> SyntaxNode -> M W (list RangeInFileWithContents.t))
         (filepath : string) (ide : IDE W)
         (nodes : list SyntaxNode) (results : list RangeInFileWithContents.t)
  : M W (list RangeInFileWithContents.t) :=
  match nodes with
  | [] => ret results
  | node :: rest =>
      definitions <- strategy filepath node ;;
      fresh <- promiseAll (reread ide) definitions ;;
      forEachNodeWith strategy filepath ide rest (results ++ fresh)
  end.

(** The loop as it is written, the strategy called as on line 165. *)
Definition forEachNode (filepath : string) (ide : IDE W)
           (nodes : list SyntaxNode) (results : list RangeInFileWithContents.t)
  : M W (list RangeInFileWithContents.t) :=
  forEachNodeWith strategyAsCalled filepath ide nodes results.

(** The fixed score of lines 188-191. *)
Definition fixedScore : Q := 0.8%Q.

(** Lines 188-191: the final [results.map]. *)
Definition scoreResults (results : list RangeInFileWithContents.t)
  : list AutocompleteSnippet.t :=
  map (fun result => withScore result fixedScore) results.

(** Lines 157-191: the body of the [try], for any way of calling the
    strategy. *)
Definition getDefinitionsFromLsp_tryWith
           (strategy : string -> SyntaxNode -> M W (list RangeInFileWithContents.t))
           (filepath contents : string) (cursorIndex : nat) (ide : IDE W)
  : M W (list AutocompleteSnippet.t) :=
  ast <- awaitGetAst filepath contents ;;
  match ast with
  | None => ret []
  | Some ast =>
      treePath <- awaitGetTreePathAtCursor ast cursorIndex ;;
      match treePath with
      | None => ret []
      | Some treePath =>
          results <- forEachNodeWith strategy filepath ide (rev treePath) [] ;;
          ret (scoreResults results)
      end
  end.

Definition warning : string := "Error getting definitions from LSP: ".

(** Lines 156-195: the [try] and its [catch], for any way of calling the
    strategy. *)
Definition getDefinitionsFromLspWith
           (strategy : string -> SyntaxNode -> M W (list RangeInFileWithContents.t))
           (filepath contents : string) (cursorIndex : nat) (ide : IDE W)
  : M W (list AutocompleteSnippet.t) :=
  tryCatch (getDefinitionsFromLsp_tryWith strategy filepath contents cursorIndex ide)
           (fun e => console_warn warning e ;;; ret []).

(** Lines 157-191 as they are written. *)
Definition getDefinitionsFromLsp_try (filepath contents : string)
           (cursorIndex : nat) (ide : IDE W)
  : M W (list AutocompleteSnippet.t) :=
  getDefinitionsFromLsp_tryWith strategyAsCalled filepath contents cursorIndex ide.

(** [getDefinitionsFromLsp(filepath, contents, cursorIndex, ide)] *)
Definition getDefinitionsFromLsp (filepath contents : string)
           (cursorIndex : nat) (ide : IDE W)
  : M W (list AutocompleteSnippet.t) :=
  getDefinitionsFromLspWith strategyAsCalled filepath contents cursorIndex ide.

End Lsp.

(** ** A small workspace to run the crawler on

    The world is a clock that ticks at every collaborator call. *)
Module Scenario.

Definition tick {A} (outcome : Completion A) (clock : nat) : Completion A * nat :=
  (outcome, S clock).

Definition at_ (line character : nat) : Position.t := Position.mk line character.
Definition span (l1 c1 l2 c2 : nat) : Range.t := Range.mk (at_ l1 c1) (at_ l2 c2).
Definition leaf (type : string) (r1 c1 r2 c2 index : nat) (text : string) : SyntaxNode :=
  mkSyntaxNode type (Point.mk r1 c1) (Point.mk r2 c2) index text [].

(** [lib.ts], lines 0-7: a function of eight lines. *)
Definition fooText : string :=
"function foo(a, b) {
  const c = a + b;
  const d = c * 2;
  const e = d - 1;
  const f = e / 3;
  const g = f + 7;
  return g;
}".
Definition fooDef : RangeInFile.t := RangeInFile.mk "lib.ts" (span 0 0 7 1).

(** [lib.ts], lines 10-26: a function of seventeen lines. *)
Definition barSignature : string := "function bar(x: number): number".
Definition barBody : string :=
"{
  let y = x;
  y = y + 1;
  y = y + 2;
  y = y + 3;
  y = y + 4;
  y = y + 5;
  y = y + 6;
  y = y + 7;
  y = y + 8;
  y = y + 9;
  y = y + 10;
  y = y + 11;
  y = y + 12;
  y = y + 13;
  return y;
}".
Definition barText : string := barSignature ++ " " ++ barBody.
Definition barDef : RangeInFile.t := RangeInFile.mk "lib.ts" (span 10 0 26 1).
Definition barTree : Tree.t :=
  Tree.mk
    (mkSyntaxNode "program" (Point.mk 0 0) (Point.mk 16 1) 0 barText
       [mkSyntaxNode "function_declaration" (Point.mk 0 0) (Point.mk 16 1) 0 barText
          [leaf "identifier" 0 9 0 12 9 "bar";
           leaf "formal_parameters" 0 12 0 23 12 "(x: number)";
           leaf "type_annotation" 0 23 0 31 23 ": number";
           leaf "statement_block" 0 32 16 1 32 barBody]]).

(** [lib.ts], lines 30-46: seventeen lines that do not parse. *)
Definition bazText : string :=
"baz = (((
1
2
3
4
5
6
7
8
9
10
11
12
13
14
15
16".
Definition bazDef : RangeInFile.t := RangeInFile.mk "lib.ts" (span 30 0 46 2).

(** [widget.ts] and [color.ts]. *)
Definition widgetText : string :=
"class Widget {
  color: Color;
}
".
Definition widgetDef : RangeInFile.t := RangeInFile.mk "widget.ts" (span 0 0 3 0).
Definition colorText : string :=
"enum Color {
  Red,
  Green }".
Definition colorDef : RangeInFileWithContents.t :=
  RangeInFileWithContents.mk "color.ts" (span 0 0 2 9) colorText.

(** [self.ts]: a declaration whose return annotation names itself. *)
Definition selfText : string := "function Self(): Self { return this; }".
Definition selfDef : RangeInFile.t := RangeInFile.mk "self.ts" (span 0 0 0 38).

(** [main.ts]: five calls, the last one nested. *)
Definition mainText : string :=
"foo(1, 2)
bar(1)
baz()
Self()
foo(foo(1))".
Definition fooCall : SyntaxNode :=
  mkSyntaxNode "call_expression" (Point.mk 0 0) (Point.mk 0 9) 0 "foo(1, 2)"
    [leaf "identifier" 0 0 0 3 0 "foo"; leaf "arguments" 0 3 0 9 3 "(1, 2)"].
Definition barCall : SyntaxNode :=
  mkSyntaxNode "call_expression" (Point.mk 1 0) (Point.mk 1 6) 10 "bar(1)"
    [leaf "identifier" 1 0 1 3 10 "bar"; leaf "arguments" 1 3 1 6 13 "(1)"].
Definition bazCall : SyntaxNode :=
  mkSyntaxNode "call_expression" (Point.mk 2 0) (Point.mk 2 5) 17 "baz()"
    [leaf "identifier" 2 0 2 3 17 "baz"; leaf "arguments" 2 3 2 5 20 "()"].
Definition selfCall : SyntaxNode :=
  mkSyntaxNode "call_expression" (Point.mk 3 0) (Point.mk 3 6) 23 "Self()"
    [leaf "identifier" 3 0 3 4 23 "Self"; leaf "arguments" 3 4 3 6 27 "()"].
Definition innerFooCall : SyntaxNode :=
  mkSyntaxNode "call_expression" (Point.mk 4 4) (Point.mk 4 10) 34 "foo(1)"
    [leaf "identifier" 4 4 4 7 34 "foo"; leaf "arguments" 4 7 4 10 37 "(1)"].
Definition outerFooCall : SyntaxNode :=
  mkSyntaxNode "call_expression" (Point.mk 4 0) (Point.mk 4 11) 30 "foo(foo(1))"
    [leaf "identifier" 4 0 4 3 30 "foo";
     mkSyntaxNode "arguments" (Point.mk 4 3) (Point.mk 4 11) 33 "(foo(1))"
       [leaf "(" 4 3 4 4 33 "("; innerFooCall; leaf ")" 4 10 4 11 40 ")"]].
Definition mainTree : Tree.t :=
  Tree.mk
    (mkSyntaxNode "program" (Point.mk 0 0) (Point.mk 4 11) 0 mainText
       [fooCall; barCall; bazCall; selfCall; outerFooCall]).

(** [new.ts] and [anonymous.ts]: an instantiation by name and one
    without a name. *)
Definition newText : string := "new Widget()".
Definition newWidget : SyntaxNode :=
  mkSyntaxNode "new_expression" (Point.mk 0 0) (Point.mk 0 12) 0 newText
    [leaf "new" 0 0 0 3 0 "new"; leaf "identifier" 0 4 0 10 4 "Widget";
     leaf "arguments" 0 10 0 12 10 "()"].
Definition newTree : Tree.t :=
  Tree.mk (mkSyntaxNode "program" (Point.mk 0 0) (Point.mk 0 12) 0 newText [newWidget]).
Definition anonymousText : string := "new (makeWidgetClass())".
Definition newAnonymous : SyntaxNode :=
  mkSyntaxNode "new_expression" (Point.mk 0 0) (Point.mk 0 23) 0 anonymousText
    [leaf "new" 0 0 0 3 0 "new";
     leaf "parenthesized_expression" 0 4 0 23 4 "(makeWidgetClass())"].

(** The syntax-tree provider: there is a grammar for [.ts] files only. *)
Definition hasGrammar (filepath : string) : bool :=
  String.eqb (substring (String.length filepath - 3) 3 filepath) ".ts".

Definition parse (filepath contents : string) : option Tree.t :=
  if negb (hasGrammar filepath) then None
  else if String.eqb contents mainText then Some mainTree
  else if String.eqb contents newText then Some newTree
  else if String.eqb contents barText then Some barTree
  else None.

Definition covers (node : SyntaxNode) (cursorIndex : nat) : bool :=
  Nat.leb (Node.startIndex node) cursorIndex
  && Nat.leb cursorIndex (Node.startIndex node + String.length (Node.text node)).

(** The chain of nodes around the cursor, outermost first. *)
Fixpoint pathFrom (cursorIndex : nat) (node : SyntaxNode) : list SyntaxNode :=
  match node with
  | mkSyntaxNode _ _ _ _ _ children =>
      node :: (fix firstCovering (candidates : list SyntaxNode) : list SyntaxNode :=
                 match candidates with
                 | [] => []
                 | child :: others =>
                     if covers child cursorIndex then pathFrom cursorIndex child
                     else firstCovering others
                 end) children
  end.

Definition pathAt (ast : Tree.t) (cursorIndex : nat) : option (list SyntaxNode) :=
  if covers (Tree.rootNode ast) cursorIndex
  then Some (pathFrom cursorIndex (Tree.rootNode ast))
  else Some [].

(** The definition-resolution provider: where each symbol of the
    crawled files is defined. *)
Definition definitionAt (input : GotoInput.t) : list RangeInFile.t :=
  match GotoInput.uri input, GotoInput.line input, GotoInput.character input with
  | "main.ts", 0, 0 => [fooDef]
  | "main.ts", 1, 0 => [barDef]
  | "main.ts", 2, 0 => [bazDef]
  | "main.ts", 3, 0 => [selfDef]
  | "main.ts", 4, 0 => [fooDef]
  | "main.ts", 4, 4 => [fooDef]
  | "new.ts", 0, 10 => [widgetDef]
  | "anonymous.ts", 0, 23 => [widgetDef]
  | _, _, _ => []
  end.

(** The file-content provider. *)
Definition fileText (filepath : string) (range : Range.t) : Completion string :=
  match filepath, range with
  | "lib.ts", Range.mk (Position.mk 0 0) (Position.mk 7 1) => Returned fooText
  | "lib.ts", Range.mk (Position.mk 10 0) (Position.mk 26 1) => Returned barText
  | "lib.ts", Range.mk (Position.mk 30 0) (Position.mk 46 2) => Returned bazText
  | "widget.ts", Range.mk (Position.mk 0 0) (Position.mk 3 0) => Returned widgetText
  | "self.ts", Range.mk (Position.mk 0 0) (Position.mk 0 38) => Returned selfText
  | _, _ => Thrown (Js.Failure "ENOENT")
  end.

Definition ide : IDE nat :=
  {| readRangeInFile := fun filepath range => tick (fileText filepath range) |}.

(** The type crawler: the types named in a definition. *)
Definition typesOf (definition : RangeInFileWithContents.t)
  : list RangeInFileWithContents.t :=
  match RangeInFileWithContents.filepath definition with
  | "widget.ts" => [colorDef]
  | "self.ts" => [RangeInFileWithContents.mk "self.ts" (span 0 0 0 38) selfText]
  | _ => []
  end.

(** The nodes of a tree that satisfy a predicate, parents first. *)
Fixpoint matching (predicate : SyntaxNode -> bool) (node : SyntaxNode)
  : list SyntaxNode :=
  match node with
  | mkSyntaxNode _ _ _ _ _ children =>
      (if predicate node then [node] else [])
        ++ flat_map (matching predicate) children
  end.

Definition env : Collaborators nat :=
  {| getAst := fun filepath contents => tick (Returned (parse filepath contents));
     getTreePathAtCursor := fun ast cursorIndex => tick (Returned (pathAt ast cursorIndex));
     executeGotoProvider := fun input => tick (Returned (definitionAt input));
     crawlTypes := fun definition _ => tick (Returned (typesOf definition));
     findChildren := fun node predicate firstN => firstn firstN (matching predicate node);
     FUNCTION_DECLARATION_NODE_TYPEs :=
       ["method_definition"; "function_definition"; "function_item";
        "function_declaration"; "method_declaration"];
     FUNCTION_BLOCK_NODE_TYPES := ["block"; "statement_block"] |}.

(** The same workspace with a language server that fails every query. *)
Definition brokenServer : Collaborators nat :=
  {| getAst := getAst env;
     getTreePathAtCursor := getTreePathAtCursor env;
     executeGotoProvider := fun _ => tick (Thrown (Js.Failure "server not ready"));
     crawlTypes := crawlTypes env;
     findChildren := findChildren env;
     FUNCTION_DECLARATION_NODE_TYPEs := FUNCTION_DECLARATION_NODE_TYPEs env;
     FUNCTION_BLOCK_NODE_TYPES := FUNCTION_BLOCK_NODE_TYPES env |}.

Definition typescript : AutocompleteLanguageInfo.t :=
  AutocompleteLanguageInfo.mk "//".

Definition start : Run nat := mkRun 0 [] [].

End Scenario.

(** ** Predicates the claims are stated with *)

(** What C9 asks of a snippet. *)
Definition scoredAndNonEmpty (s : AutocompleteSnippet.t) : Prop :=
  AutocompleteSnippet.score s = 0.8%Q
  /\ 1 <= List.length (Js.lines (AutocompleteSnippet.contents s)).

(** A computation that leaves the console alone and only adds to the
    list of calls. *)
Definition Quiet {W A : Type} (m : M W A) : Prop :=
  forall r, console (snd (m r)) = console r
            /\ exists new, calls (snd (m r)) = calls r ++ new.


(** A snippet without its score. *)
Definition unscored (s : AutocompleteSnippet.t) : RangeInFileWithContents.t :=
  RangeInFileWithContents.mk (AutocompleteSnippet.filepath s)
    (AutocompleteSnippet.range s) (AutocompleteSnippet.contents s).

(** ** Notions used to describe the strategy's collaborator calls *)

(** The query the strategy sends for a node (lines 35-40 and 97-105):
    a definition query at the start of a call expression, or at the end
    of the first identifier child of a new-expression (of the
    new-expression itself when it has no such child); no query for any
    other node. *)
Definition gotoQueryFor (uri : string) (node : SyntaxNode) : option GotoInput.t :=
  if String.eqb (Node.type node) "call_expression" then
    Some (GotoInput.mk uri (Point.row (Node.startPosition node))
            (Point.column (Node.startPosition node)) executeDefinitionProvider)
  else if String.eqb (Node.type node) "new_expression" then
    let target :=
      match find (fun child => String.eqb (Node.type child) "identifier")
                 (Node.children node) with
      | Some c => c
      | None => node
      end in
    Some (GotoInput.mk uri (Point.row (Node.endPosition target))
            (Point.column (Node.endPosition target)) executeDefinitionProvider)
  else None.

(** The error thrown when a property of a missing [ide] is read. *)
Definition missingIde : Js.Error :=
  Js.TypeError "Cannot read properties of undefined (reading 'readRangeInFile')".

(** The error thrown when a property of a missing [lang] is read. *)
Definition missingLang : Js.Error :=
  Js.TypeError "Cannot read properties of undefined (reading 'singleLineComment')".

(** The queries of the handled nodes of [nodes], in order. *)
Definition queriesOf (uri : string) (nodes : list SyntaxNode) : list GotoInput.t :=
  flat_map (fun node => match gotoQueryFor uri node with
                        | Some query => [query]
                        | None => []
                        end) nodes.

(** The walk over [nodes] of an aggregator that has no ide to give, from
    the world [w]: the queries it sends, the error that stops it (that of
    the missing ide when a query resolves, the resolver's own when a
    query fails), and the world it ends in. *)
Fixpoint walkFrom {W : Type} (env : Collaborators W) (uri : string)
         (nodes : list SyntaxNode) (w : W)
  : list GotoInput.t * option Js.Error * W :=
  match nodes with
  | [] => ([], None, w)
  | node :: rest =>
      match gotoQueryFor uri node with
      | None => walkFrom env uri rest w
      | Some query =>
          match executeGotoProvider env query w with
          | (Returned [], w') =>
              let '(queries, stop, w'') := walkFrom env uri rest w' in
              (query :: queries, stop, w'')
          | (Returned (_ :: _), w') =>
              ([query], Some missingIde, w')
          | (Thrown e, w') => ([query], Some e, w')
          end
      end
  end.

(** The same collaborators, with a resolver that hands over the first
    location only. *)
Definition firstLocationOnly {W : Type} (env : Collaborators W) : Collaborators W :=
  {| getAst := getAst env;
     getTreePathAtCursor := getTreePathAtCursor env;
     executeGotoProvider :=
       fun input w =>
         let '(outcome, w') := executeGotoProvider env input w in
         (match outcome with
          | Returned locations => Returned (firstn 1 locations)
          | Thrown e => Thrown e
          end, w');
     crawlTypes := crawlTypes env;
     findChildren := findChildren env;
     FUNCTION_DECLARATION_NODE_TYPEs := FUNCTION_DECLARATION_NODE_TYPEs env;
     FUNCTION_BLOCK_NODE_TYPES := FUNCTION_BLOCK_NODE_TYPES env |}.

(** Filepath and range of a result. *)
Definition locationOf (s : RangeInFileWithContents.t) : string * Range.t :=
  (RangeInFileWithContents.filepath s, RangeInFileWithContents.range s).

(** The read of a result's own range that returned the result's contents. *)
Definition readOf (s : RangeInFileWithContents.t) : Call :=
  CallReadRangeInFile (RangeInFileWithContents.filepath s)
    (RangeInFileWithContents.range s)
    (Returned (RangeInFileWithContents.contents s)).

(** The call reads a file or asks the type crawler. *)
Definition isReadOrCrawl (c : Call) : bool :=
  match c with
  | CallReadRangeInFile _ _ _ | CallCrawlTypes _ => true
  | _ => false
  end.

(** The text begins with no white space. *)
Definition startsClean (s : string) : Prop :=
  match s with
  | EmptyString => True
  | String c _ => Js.isWhiteSpace c = false
  end.

(** The reads that materialize the bare locations of [ranges], given the
    results [out] they led to: one per bare location, in order. *)
Fixpoint readsFor (ranges : list (RangeInFile.t + RangeInFileWithContents.t))
         (out : list RangeInFileWithContents.t) : list Call :=
  match ranges, out with
  | inl _ :: ranges', s :: out' => readOf s :: readsFor ranges' out'
  | inr _ :: ranges', _ :: out' => readsFor ranges' out'
  | _, _ => []
  end.

(** A result with its contents wiped out. *)
Definition blank (s : RangeInFileWithContents.t) : RangeInFileWithContents.t :=
  RangeInFileWithContents.mk (RangeInFileWithContents.filepath s)
    (RangeInFileWithContents.range s) EmptyString.

(** A strategy that does what [strategy] does and hands over the same
    locations, with all contents wiped out. *)
Definition eraseContents {W : Type}
           (strategy : string -> SyntaxNode -> M W (list RangeInFileWithContents.t))
  : string -> SyntaxNode -> M W (list RangeInFileWithContents.t) :=
  fun uri node r =>
    match strategy uri node r with
    | (Returned definitions, r') => (Returned (map blank definitions), r')
    | (Thrown e, r') => (Thrown e, r')
    end.

(** What the loop of the aggregator owes to each node, in the order of
    the nodes: the strategy returned [definitions] for the node; the
    results for the node have the filepaths and ranges of [definitions],
    in their order; and the calls made after the strategy returned are
    one read per result, of the result's own range, which returned the
    result's contents. *)
Inductive Aggregated {W : Type}
          (strategy : string -> SyntaxNode -> M W (list RangeInFileWithContents.t))
          (filepath : string)
  : list SyntaxNode -> Run W -> list RangeInFileWithContents.t -> Run W -> Prop :=
| Aggregated_done (r : Run W) : Aggregated strategy filepath [] r [] r
| Aggregated_node (node : SyntaxNode) (rest : list SyntaxNode) (r r1 r2 r3 : Run W)
                  (definitions fresh more : list RangeInFileWithContents.t) :
    strategy filepath node r = (Returned definitions, r1) ->
    map locationOf fresh = map locationOf definitions ->
    calls r2 = calls r1 ++ map readOf fresh ->
    Aggregated strategy filepath rest r2 more r3 ->
    Aggregated strategy filepath (node :: rest) r (fresh ++ more) r3.

(** The file and range a read asks for. *)
Definition readTarget (c : Call) : option (string * Range.t) :=
  match c with
  | CallReadRangeInFile filepath range _ => Some (filepath, range)
  | _ => None
  end.

(** The call is a read that failed. *)
Definition isFailedRead (c : Call) : bool :=
  match c with
  | CallReadRangeInFile _ _ (Thrown _) => true
  | _ => false
  end.

(** ** The workspace of the scenario with faults *)
Module Faults.

(** A resolver whose only answer is a file that has since been removed. *)
Definition goneDef : RangeInFile.t :=
  RangeInFile.mk "gone.ts" (Scenario.span 0 0 1 0).

Definition staleServer : Collaborators nat :=
  {| getAst := getAst Scenario.env;
     getTreePathAtCursor := getTreePathAtCursor Scenario.env;
     executeGotoProvider := fun _ => Scenario.tick (Returned [goneDef]);
     crawlTypes := crawlTypes Scenario.env;
     findChildren := findChildren Scenario.env;
     FUNCTION_DECLARATION_NODE_TYPEs := FUNCTION_DECLARATION_NODE_TYPEs Scenario.env;
     FUNCTION_BLOCK_NODE_TYPES := FUNCTION_BLOCK_NODE_TYPES Scenario.env |}.

(** A type crawler that fails. *)
Definition brokenCrawler : Collaborators nat :=
  {| getAst := getAst Scenario.env;
     getTreePathAtCursor := getTreePathAtCursor Scenario.env;
     executeGotoProvider := executeGotoProvider Scenario.env;
     crawlTypes := fun _ _ => Scenario.tick (Thrown (Js.Failure "no grammar"));
     findChildren := findChildren Scenario.env;
     FUNCTION_DECLARATION_NODE_TYPEs := FUNCTION_DECLARATION_NODE_TYPEs Scenario.env;
     FUNCTION_BLOCK_NODE_TYPES := FUNCTION_BLOCK_NODE_TYPES Scenario.env |}.

End Faults.

(** The strategy of the scenario when it is called with all four
    arguments. *)
Definition strategyGivenAll (uri : string) (node : SyntaxNode)
  : M nat (list RangeInFileWithContents.t) :=
  getDefinitionsForNode Scenario.env uri node (Some Scenario.ide)
    (Some Scenario.typescript).

Import Scenario.

(** ** Facts about the string operations and the monad *)

Lemma split_length_pos (sep : ascii) (s : string) :
  1 <= List.length (Js.split sep s).
Proof.
  induction s as [|c rest IH]; simpl.
  - lia.
  - destruct (Ascii.eqb c sep); simpl; [lia|].
    destruct (Js.split sep rest); simpl in *; lia.
Qed.

Lemma lines_length_pos (s : string) : 1 <= List.length (Js.lines s).
Proof. apply split_length_pos. Qed.

Lemma string_append_assoc (a b c : string) :
  ((a ++ b) ++ c = a ++ (b ++ c))%string.
Proof. induction a as [|x a IH]; simpl; [reflexivity | now rewrite IH]. Qed.

Lemma vscode_Range_same (range : Range.t) :
  vscode_Range
    (vscode_Position (Position.line (Range.start range))
                     (Position.character (Range.start range)))
    (vscode_Position (Position.line (Range.end_ range))
                     (Position.character (Range.end_ range)))
  = range.
Proof. destruct range as [[? ?] [? ?]]; reflexivity. Qed.

Section MonadFacts.

Context {W : Type}.

Lemma bind_returned {A B} (m : M W A) (k : A -> M W B) r a r' :
  m r = (Returned a, r') -> bind m k r = k a r'.
Proof. unfold bind; intros ->; reflexivity. Qed.

Lemma bind_thrown {A B} (m : M W A) (k : A -> M W B) r e r' :
  m r = (Thrown e, r') -> bind m k r = (Thrown e, r').
Proof. unfold bind; intros ->; reflexivity. Qed.

Lemma bind_inv {A B} (m : M W A) (k : A -> M W B) r b r2 :
  bind m k r = (Returned b, r2) ->
  exists a r1, m r = (Returned a, r1) /\ k a r1 = (Returned b, r2).
Proof.
  unfold bind. destruct (m r) as [[a|e] r1]; intros H.
  - exists a, r1; split; [reflexivity | exact H].
  - discriminate H.
Qed.

Lemma await_run {A} (record : Completion A -> Call)
      (call : W -> Completion A * W) r outcome w :
  call (world r) = (outcome, w) ->
  await record call r
  = (outcome, mkRun w (console r) (calls r ++ [record outcome])).
Proof. unfold await; intros ->; reflexivity. Qed.

Lemma quiet_ret {A} (a : A) : Quiet (@ret W A a).
Proof. intros r; split; [reflexivity | exists []; simpl; now rewrite app_nil_r]. Qed.

Lemma quiet_throw {A} (e : Js.Error) : Quiet (@throw W A e).
Proof. intros r; split; [reflexivity | exists []; simpl; now rewrite app_nil_r]. Qed.

Lemma quiet_await {A} (record : Completion A -> Call)
      (call : W -> Completion A * W) :
  Quiet (await record call).
Proof.
  intros r; unfold await. destruct (call (world r)) as [o w]; simpl.
  split; [reflexivity | now exists [record o]].
Qed.

Lemma quiet_bind {A B} (m : M W A) (k : A -> M W B) :
  Quiet m -> (forall a, Quiet (k a)) -> Quiet (bind m k).
Proof.
  intros Hm Hk r. unfold bind.
  destruct (Hm r) as [Hc [new Hn]].
  destruct (m r) as [[a|e] r1]; simpl in *.
  - destruct (Hk a r1) as [Hc' [new' Hn']].
    split; [congruence|].
    exists (new ++ new'). rewrite Hn', Hn. now rewrite app_assoc.
  - split; [assumption | now exists new].
Qed.

Lemma quiet_member {A} (object : option A) property :
  Quiet (@member W A object property).
Proof. destruct object; [apply quiet_ret | apply quiet_throw]. Qed.

Lemma promiseAll_cons_returned {A B} (f : A -> M W B) x rest r y r1 :
  f x r = (Returned y, r1) ->
  promiseAll f (x :: rest) r
  = bind (promiseAll f rest) (fun ys => ret (y :: ys)) r1.
Proof. simpl. intros ->. reflexivity. Qed.

Lemma promiseAll_cons_thrown {A B} (f : A -> M W B) x rest r e r1 :
  f x r = (Thrown e, r1) ->
  promiseAll f (x :: rest) r = (Thrown e, snd (promiseAll f rest r1)).
Proof. simpl. intros ->. reflexivity. Qed.

Lemma promiseAll_cons_inv {A B} (f : A -> M W B) x rest r out r' :
  promiseAll f (x :: rest) r = (Returned out, r') ->
  exists y r1 ys,
    f x r = (Returned y, r1)
    /\ promiseAll f rest r1 = (Returned ys, r')
    /\ out = y :: ys.
Proof.
  simpl. destruct (f x r) as [[y|e] r1]; [|discriminate].
  intros H. apply bind_inv in H. destruct H as [ys [r2 [Hys H]]].
  inversion H; subst. exists y, r1, ys. repeat split. exact Hys.
Qed.

Lemma quiet_promiseAll {A B} (f : A -> M W B) (items : list A) :
  (forall x, Quiet (f x)) -> Quiet (promiseAll f items).
Proof.
  intros Hf. induction items as [|x rest IH]; simpl.
  - apply quiet_ret.
  - intros r. destruct (Hf x r) as [Hc [new Hn]].
    destruct (f x r) as [[y|e] r1]; simpl in Hc, Hn.
    + assert (Hq : Quiet (bind (promiseAll f rest) (fun ys => ret (y :: ys)))).
      { apply quiet_bind; [exact IH|]. intros ys. apply quiet_ret. }
      destruct (Hq r1) as [Hc' [new' Hn']].
      split; [congruence|]. exists (new ++ new').
      rewrite Hn', Hn. now rewrite app_assoc.
    + destruct (IH r1) as [Hc' [new' Hn']]. simpl.
      split; [congruence|]. exists (new ++ new').
      rewrite Hn', Hn. now rewrite app_assoc.
Qed.

End MonadFacts.

Ltac quiet_step :=
  first [ apply quiet_promiseAll; intros ?
        | apply quiet_ret | apply quiet_throw | apply quiet_await
        | apply quiet_member
        | apply quiet_bind; [| intros ?] ].

Section LspFacts.

Context {W : Type} (env : Collaborators W).

Lemma quiet_materialize ide rif : Quiet (materialize (W:=W) ide rif).
Proof.
  destruct rif as [bare|rifc]; simpl; repeat quiet_step.
Qed.

Lemma quiet_funcTextFor ide funDef : Quiet (funcTextFor env ide funDef).
Proof.
  unfold funcTextFor, awaitReadRangeInFile, awaitGetAst.
  quiet_step; [quiet_step|].
  destruct (Nat.ltb _ _); [|quiet_step].
  quiet_step; [quiet_step|].
  destruct (signatureOf env _); quiet_step.
Qed.

Lemma quiet_getDefinitionsForNode uri node ide lang :
  Quiet (getDefinitionsForNode env uri node ide lang).
Proof.
  unfold getDefinitionsForNode, awaitExecuteGotoProvider, awaitCrawlTypes,
    awaitReadRangeInFile.
  repeat match goal with |- Quiet (if ?c then _ else _) => destruct c end;
    try (simpl; apply quiet_ret).
  - quiet_step; [quiet_step|]. destruct a as [|funDef more]; [quiet_step|].
    quiet_step; [quiet_step|].
    quiet_step; [apply quiet_funcTextFor|].
    quiet_step; [quiet_step|].
    quiet_step. apply quiet_materialize.
  - quiet_step; [quiet_step|]. destruct a as [|classDef more]; [simpl; quiet_step|].
    quiet_step; [quiet_step|].
    quiet_step; [quiet_step|].
    quiet_step.
    { destruct (find _ _) as [c|]; [|quiet_step].
      destruct (String.eqb _ _); repeat quiet_step. }
    quiet_step; [quiet_step|].
    quiet_step. apply quiet_materialize.
Qed.

End LspFacts.

Section AggregatorFacts.

Context {W : Type} (env : Collaborators W).

Lemma quiet_reread ide def : Quiet (reread (W:=W) ide def).
Proof. unfold reread; repeat quiet_step. Qed.

Lemma quiet_forEachNodeWith
      (strategy : string -> SyntaxNode -> M W (list RangeInFileWithContents.t))
      filepath ide nodes :
  (forall uri node, Quiet (strategy uri node)) ->
  forall results, Quiet (forEachNodeWith strategy filepath ide nodes results).
Proof.
  intros Hs. induction nodes as [|node rest IH]; intros results; simpl.
  - apply quiet_ret.
  - apply quiet_bind; [apply Hs|]. intros definitions.
    apply quiet_bind; [apply quiet_promiseAll; intros; apply quiet_reread|].
    intros fresh. apply IH.
Qed.

Lemma quiet_forEachNode filepath ide nodes :
  forall results, Quiet (forEachNode env filepath ide nodes results).
Proof.
  intros results. apply quiet_forEachNodeWith. intros uri node.
  apply quiet_getDefinitionsForNode.
Qed.

Lemma quiet_try filepath contents cursorIndex ide :
  Quiet (getDefinitionsFromLsp_try env filepath contents cursorIndex ide).
Proof.
  unfold getDefinitionsFromLsp_try, getDefinitionsFromLsp_tryWith.
  apply quiet_bind; [apply quiet_await|]. intros [ast|]; [|apply quiet_ret].
  apply quiet_bind; [apply quiet_await|]. intros [treePath|]; [|apply quiet_ret].
  apply quiet_bind; [apply quiet_forEachNode|]. intros results. apply quiet_ret.
Qed.

Lemma getDefinitionsFromLsp_unfold filepath contents cursorIndex ide (r : Run W) :
  getDefinitionsFromLsp env filepath contents cursorIndex ide r
  = tryCatch (getDefinitionsFromLsp_try env filepath contents cursorIndex ide)
             (fun e => bind (console_warn warning e) (fun _ => ret [])) r.
Proof. reflexivity. Qed.

Lemma getDefinitionsFromLsp_try_unfold filepath contents cursorIndex ide (r : Run W) :
  getDefinitionsFromLsp_try env filepath contents cursorIndex ide r
  = bind (awaitGetAst env filepath contents)
      (fun ast =>
         match ast with
         | None => ret []
         | Some ast =>
             bind (awaitGetTreePathAtCursor env ast cursorIndex)
               (fun treePath =>
                  match treePath with
                  | None => ret []
                  | Some treePath =>
                      bind (forEachNode env filepath ide (rev treePath) [])
                           (fun results => ret (scoreResults results))
                  end)
         end) r.
Proof. reflexivity. Qed.

Lemma forEachNode_skip filepath (ide : IDE W) node rest results (r r1 : Run W) :
  getDefinitionsForNode env filepath node None None r = (Returned [], r1) ->
  forEachNode env filepath ide (node :: rest) results r
  = forEachNode env filepath ide rest results r1.
Proof.
  intros Hnil. unfold forEachNode, strategyAsCalled. simpl.
  rewrite (bind_returned _ _ _ _ _ Hnil). simpl.
  unfold bind, ret. now rewrite app_nil_r.
Qed.

Lemma forEachNode_stop filepath (ide : IDE W) node rest results (r r1 : Run W) e :
  getDefinitionsForNode env filepath node None None r = (Thrown e, r1) ->
  forEachNode env filepath ide (node :: rest) results r = (Thrown e, r1).
Proof.
  intros He. unfold forEachNode, strategyAsCalled. simpl.
  now rewrite (bind_thrown _ _ _ _ _ He).
Qed.

(** With a resolver that fails every query the per-node strategy finds
    nothing, whatever it is given. *)
Lemma getDefinitionsForNode_failing_resolver uri node ide lang r :
  (forall input w, exists e w', executeGotoProvider env input w = (Thrown e, w')) ->
  (exists e r', getDefinitionsForNode env uri node ide lang r = (Thrown e, r'))
  \/ getDefinitionsForNode env uri node ide lang r = (Returned [], r).
Proof.
  intros Hfail. unfold getDefinitionsForNode.
  repeat match goal with |- context [if ?c then _ else _] => destruct c end;
    try (right; reflexivity).
  - left. match goal with |- context [awaitExecuteGotoProvider env ?i] =>
      destruct (Hfail i (world r)) as [e [w' He]];
      exists e; eexists; apply bind_thrown; unfold awaitExecuteGotoProvider;
      apply await_run; exact He end.
  - left. match goal with |- context [awaitExecuteGotoProvider env ?i] =>
      destruct (Hfail i (world r)) as [e [w' He]];
      exists e; eexists; apply bind_thrown; unfold awaitExecuteGotoProvider;
      apply await_run; exact He end.
Qed.

Lemma forEachNode_failing_resolver filepath ide nodes :
  (forall input w, exists e w', executeGotoProvider env input w = (Thrown e, w')) ->
  forall results r,
    (exists e r', forEachNode env filepath ide nodes results r = (Thrown e, r'))
    \/ forEachNode env filepath ide nodes results r = (Returned results, r).
Proof.
  intros Hfail. induction nodes as [|node rest IH]; intros results r.
  - right; reflexivity.
  - destruct (getDefinitionsForNode_failing_resolver filepath node None None r Hfail)
      as [[e [r' He]] | Hnil].
    + left. exists e, r'. now apply forEachNode_stop.
    + rewrite (forEachNode_skip filepath ide node rest results r r Hnil). apply IH.
Qed.

End AggregatorFacts.

(** ** The claims *)

(** C3 (the cache key): the key is not built from the exact tuple.  The
    uri never reaches the key, so queries that differ in their file only
    have the same key, and line and column are joined without a
    separator, so [(1, 23)] and [(12, 3)] have the same key too. *)
Theorem gotoInputKey_not_injective :
  (forall uri1 uri2 line character name,
      gotoInputKey (GotoInput.mk uri1 line character name)
      = gotoInputKey (GotoInput.mk uri2 line character name))
  /\ GotoInput.mk "lib.ts" 3 4 executeDefinitionProvider
     <> GotoInput.mk "widget.ts" 3 4 executeDefinitionProvider
  /\ gotoInputKey (GotoInput.mk "lib.ts" 3 4 executeDefinitionProvider)
     = gotoInputKey (GotoInput.mk "widget.ts" 3 4 executeDefinitionProvider)
  /\ gotoInputKey (GotoInput.mk "lib.ts" 1 23 executeDefinitionProvider)
     = gotoInputKey (GotoInput.mk "lib.ts" 12 3 executeDefinitionProvider).
Proof.
  split; [reflexivity|]. split; [discriminate|]. split; reflexivity.
Qed.

(** C1 (never raises): for every input the entry point returns; it adds
    at most one warning to the console, and only together with the empty
    sequence; whatever the body of its [try] throws is turned into the
    empty sequence and one warning; in particular a resolver that throws
    on every query leads to the empty sequence. *)
Theorem getDefinitionsFromLsp_never_raises :
  forall (W : Type) (env : Collaborators W) (filepath contents : string)
         (cursorIndex : nat) (ide : IDE W) (r : Run W),
    (exists snippets r',
        getDefinitionsFromLsp env filepath contents cursorIndex ide r
        = (Returned snippets, r')
        /\ (console r' = console r
            \/ exists e, snippets = [] /\ console r' = console r ++ [(warning, e)]))
    /\ (forall e r1,
           getDefinitionsFromLsp_try env filepath contents cursorIndex ide r
           = (Thrown e, r1) ->
           getDefinitionsFromLsp env filepath contents cursorIndex ide r
           = (Returned [], mkRun (world r1) (console r ++ [(warning, e)]) (calls r1)))
    /\ ((forall input w, exists e w', executeGotoProvider env input w = (Thrown e, w')) ->
        fst (getDefinitionsFromLsp env filepath contents cursorIndex ide r)
        = Returned []).
Proof.
  intros W env filepath contents cursorIndex ide r.
  pose proof (quiet_try env filepath contents cursorIndex ide r) as [Hconsole _].
  rewrite !getDefinitionsFromLsp_unfold. unfold tryCatch.
  destruct (getDefinitionsFromLsp_try env filepath contents cursorIndex ide r)
    as [[snippets|e] r1] eqn:Hbody; simpl in Hconsole.
  - split; [exists snippets, r1; split; [reflexivity | now left]|].
    split; [intros e r2 H; discriminate H|].
    intros Hfail. simpl.
    revert Hbody. rewrite getDefinitionsFromLsp_try_unfold. unfold bind.
    destruct (awaitGetAst env filepath contents r) as [[[ast|]|e] r2];
      try (intros H; inversion H; reflexivity); try discriminate.
    destruct (awaitGetTreePathAtCursor env ast cursorIndex r2) as [[[treePath|]|e] r3];
      try (intros H; inversion H; reflexivity); try discriminate.
    destruct (forEachNode_failing_resolver env filepath ide (rev treePath) Hfail [] r3)
      as [[e [r' He]] | Hnil].
    + rewrite He. discriminate.
    + rewrite Hnil. intros H; inversion H; reflexivity.
  - split.
    { eexists [], _. split; [reflexivity|]. right. exists e. simpl.
      rewrite Hconsole. split; reflexivity. }
    split; [|reflexivity].
    intros e' r2 H; inversion H; subst. unfold bind, console_warn, ret; simpl.
    now rewrite Hconsole.
Qed.

(** Witness for C1: the language server of the scenario fails every
    query; the crawl of the nested call ends with the empty sequence and
    one warning. *)
Lemma getDefinitionsFromLsp_never_raises_witness :
  (forall input w, exists e w',
        executeGotoProvider brokenServer input w = (Thrown e, w'))
  /\ fst (getDefinitionsFromLsp brokenServer "main.ts" mainText 36 ide start)
     = Returned []
  /\ console (snd (getDefinitionsFromLsp brokenServer "main.ts" mainText 36 ide start))
     = [(warning, Js.Failure "server not ready")].
Proof.
  assert (Hfail : forall input w, exists e w',
             executeGotoProvider brokenServer input w = (Thrown e, w')).
  { intros input w. exists (Js.Failure "server not ready"), (S w). reflexivity. }
  split; [exact Hfail|]. split.
  - exact (proj2 (proj2 (getDefinitionsFromLsp_never_raises
                           nat brokenServer "main.ts" mainText 36 ide start)) Hfail).
  - vm_compute. reflexivity.
Defined.

(** C8 (no syntax path): when the syntax-tree provider has no tree for
    the file, or has no path or an empty path for the cursor, the entry
    point returns the empty sequence, logs nothing, and has called the
    syntax-tree provider only: the resolver is not asked anything. *)
Theorem getDefinitionsFromLsp_without_path :
  forall (W : Type) (env : Collaborators W) (filepath contents : string)
         (cursorIndex : nat) (ide : IDE W) (r : Run W) (w : W),
    (getAst env filepath contents (world r) = (Returned None, w)
     \/ exists ast w0,
         getAst env filepath contents (world r) = (Returned (Some ast), w0)
         /\ (getTreePathAtCursor env ast cursorIndex w0 = (Returned None, w)
             \/ getTreePathAtCursor env ast cursorIndex w0 = (Returned (Some []), w))) ->
    exists new,
      getDefinitionsFromLsp env filepath contents cursorIndex ide r
      = (Returned [], mkRun w (console r) (calls r ++ new))
      /\ (new = [CallGetAst filepath contents]
          \/ new = [CallGetAst filepath contents; CallGetTreePathAtCursor cursorIndex])
      /\ existsb isResolutionCall new = false.
Proof.
  intros W env filepath contents cursorIndex ide r w H.
  unfold getDefinitionsFromLsp, getDefinitionsFromLspWith, tryCatch,
    getDefinitionsFromLsp_tryWith.
  destruct H as [Hast | [ast [w0 [Hast Hpath]]]].
  - exists [CallGetAst filepath contents].
    (erewrite bind_returned; [| apply await_run; exact Hast]).
    split; [reflexivity|]. split; [now left | reflexivity].
  - exists [CallGetAst filepath contents; CallGetTreePathAtCursor cursorIndex].
    (erewrite bind_returned; [| apply await_run; exact Hast]).
    destruct Hpath as [Hpath | Hpath];
      (erewrite bind_returned; [| apply await_run; simpl; exact Hpath]);
      simpl; unfold ret; simpl; rewrite <- app_assoc;
      (split; [reflexivity|]; split; [now right | reflexivity]).
Qed.

(** Witness for C8: a file without a grammar, and a cursor outside the
    parsed text. *)
Lemma getDefinitionsFromLsp_without_path_witness :
  (exists new,
      getDefinitionsFromLsp env "notes.txt" "hello" 2 ide start
      = (Returned [], mkRun 1 [] ([] ++ new))
      /\ (new = [CallGetAst "notes.txt" "hello"]
          \/ new = [CallGetAst "notes.txt" "hello"; CallGetTreePathAtCursor 2])
      /\ existsb isResolutionCall new = false)
  /\ (exists new,
      getDefinitionsFromLsp env "main.ts" mainText 50 ide start
      = (Returned [], mkRun 2 [] ([] ++ new))
      /\ (new = [CallGetAst "main.ts" mainText]
          \/ new = [CallGetAst "main.ts" mainText; CallGetTreePathAtCursor 50])
      /\ existsb isResolutionCall new = false).
Proof.
  split.
  - apply (getDefinitionsFromLsp_without_path nat env "notes.txt" "hello" 2 ide start 1).
    left. reflexivity.
  - apply (getDefinitionsFromLsp_without_path nat env "main.ts" mainText 50 ide start 2).
    right. exists mainTree, 1. split; [reflexivity|]. right. reflexivity.
Defined.

Section FinalRead.

Context {W : Type}.

Lemma reread_run (ide : IDE W) (def : RangeInFileWithContents.t) (r : Run W) :
  let filepath := RangeInFileWithContents.filepath def in
  let range := RangeInFileWithContents.range def in
  match readRangeInFile ide filepath range (world r) with
  | (Returned text, w) =>
      reread ide def r
      = (Returned (RangeInFileWithContents.mk filepath range text),
         mkRun w (console r)
               (calls r ++ [CallReadRangeInFile filepath range (Returned text)]))
  | (Thrown e, w) =>
      reread ide def r
      = (Thrown e,
         mkRun w (console r)
               (calls r ++ [CallReadRangeInFile filepath range (Thrown e)]))
  end.
Proof.
  intros filepath range. unfold reread, awaitReadRangeInFile, bind, await.
  rewrite vscode_Range_same. fold filepath range.
  destruct (readRangeInFile ide filepath range (world r)) as [[text|e] w];
    reflexivity.
Qed.

End FinalRead.

(** Decide the comparisons of a known node type with the cases of the
    [switch]. *)
Ltac decide_cases :=
  repeat match goal with
         | |- context [String.eqb ?a ?b] =>
             let v := eval vm_compute in (String.eqb a b) in
             change (String.eqb a b) with v
         end;
  cbv iota.

Section PerNodeFacts.

Context {W : Type} (env : Collaborators W).

Lemma promiseAll_materialized (ide : option (IDE W))
      (defs : list RangeInFileWithContents.t) (r : Run W) :
  promiseAll (materialize ide) (map inr defs) r = (Returned defs, r).
Proof.
  induction defs as [|def rest IH]; [reflexivity|].
  change (promiseAll (materialize ide) (map inr (def :: rest)) r)
    with (bind (materialize ide (inr def))
               (fun y => bind (promiseAll (materialize ide) (map inr rest))
                              (fun ys => ret (y :: ys))) r).
  unfold bind. simpl. rewrite IH. reflexivity.
Qed.

Lemma materialize_bare (ide : IDE W) (bare : RangeInFile.t) (r : Run W) text w :
  readRangeInFile ide (RangeInFile.filepath bare) (RangeInFile.range bare) (world r)
  = (Returned text, w) ->
  materialize (Some ide) (inl bare) r
  = (Returned (withContents bare text),
     mkRun w (console r)
           (calls r ++ [CallReadRangeInFile (RangeInFile.filepath bare)
                          (RangeInFile.range bare) (Returned text)])).
Proof.
  intros Hread. unfold materialize, member. simpl.
  unfold bind at 1. unfold ret at 1.
  erewrite bind_returned; [| apply await_run; exact Hread]. reflexivity.
Qed.

Lemma funcTextFor_short (ide : IDE W) (funDef : RangeInFile.t) (r : Run W)
      funcText w :
  readRangeInFile ide (RangeInFile.filepath funDef) (RangeInFile.range funDef) (world r)
  = (Returned funcText, w) ->
  List.length (Js.lines funcText) <= 15 ->
  funcTextFor env ide funDef r
  = (Returned funcText,
     mkRun w (console r)
           (calls r ++ [CallReadRangeInFile (RangeInFile.filepath funDef)
                          (RangeInFile.range funDef) (Returned funcText)])).
Proof.
  intros Hread Hshort. unfold funcTextFor.
  erewrite bind_returned; [| apply await_run; exact Hread].
  assert (Hlt : Nat.ltb 15 (List.length (Js.lines funcText)) = false)
    by (apply Nat.ltb_ge; exact Hshort).
  rewrite Hlt. reflexivity.
Qed.

(** The run of the strategy on a call expression whose definition
    resolves, step by step. *)
Lemma call_expression_run uri node (ide : IDE W) lang (r : Run W)
      funDef more w1 funcText r2 typeDefs w3 text w4 :
  Node.type node = "call_expression" ->
  executeGotoProvider env
    (GotoInput.mk uri (Point.row (Node.startPosition node))
       (Point.column (Node.startPosition node)) executeDefinitionProvider)
    (world r) = (Returned (funDef :: more), w1) ->
  funcTextFor env ide funDef
    (mkRun w1 (console r)
       (calls r ++ [CallExecuteGotoProvider
                      (GotoInput.mk uri (Point.row (Node.startPosition node))
                         (Point.column (Node.startPosition node))
                         executeDefinitionProvider)]))
  = (Returned funcText, r2) ->
  crawlTypes env (withContents funDef funcText) ide (world r2)
  = (Returned typeDefs, w3) ->
  readRangeInFile ide (RangeInFile.filepath funDef) (RangeInFile.range funDef) w3
  = (Returned text, w4) ->
  exists r',
    getDefinitionsForNode env uri node (Some ide) lang r
    = (Returned (withContents funDef text :: typeDefs), r')
    /\ world r' = w4.
Proof.
  intros Htype Hgoto Htext Hcrawl Hread.
  unfold getDefinitionsForNode. rewrite Htype. decide_cases.
  erewrite bind_returned; [| apply await_run; exact Hgoto].
  unfold member. unfold bind at 1. unfold ret at 1.
  erewrite bind_returned; [| exact Htext].
  erewrite bind_returned; [| apply await_run; exact Hcrawl].
  erewrite promiseAll_cons_returned; [| apply materialize_bare; simpl; exact Hread].
  unfold bind. rewrite promiseAll_materialized.
  eexists. split; reflexivity.
Qed.

End PerNodeFacts.

(** C6 (short functions): for a call expression whose definition
    resolves to a range of at most fifteen lines, the type crawler is
    given the text as read (nothing is cut), and the first snippet of the
    strategy is the resolved range with the text the file-content provider
    returns for it, followed by the crawled type definitions. *)
Theorem short_function_is_verbatim :
  forall (W : Type) (env : Collaborators W) (uri : string) (node : SyntaxNode)
         (ide : IDE W) (lang : option AutocompleteLanguageInfo.t) (r : Run W)
         (funDef : RangeInFile.t) (more : list RangeInFile.t) (w1 w2 w3 w4 : W)
         (funcText text : string) (typeDefs : list RangeInFileWithContents.t),
    Node.type node = "call_expression" ->
    executeGotoProvider env
      (GotoInput.mk uri (Point.row (Node.startPosition node))
         (Point.column (Node.startPosition node)) executeDefinitionProvider)
      (world r) = (Returned (funDef :: more), w1) ->
    readRangeInFile ide (RangeInFile.filepath funDef) (RangeInFile.range funDef) w1
    = (Returned funcText, w2) ->
    List.length (Js.lines funcText) <= 15 ->
    crawlTypes env (withContents funDef funcText) ide w2 = (Returned typeDefs, w3) ->
    readRangeInFile ide (RangeInFile.filepath funDef) (RangeInFile.range funDef) w3
    = (Returned text, w4) ->
    exists r',
      getDefinitionsForNode env uri node (Some ide) lang r
      = (Returned (withContents funDef text :: typeDefs), r')
      /\ world r' = w4.
Proof.
  intros W env uri node ide lang r funDef more w1 w2 w3 w4 funcText text typeDefs
         Htype Hgoto Hfirst Hshort Hcrawl Hread.
  eapply call_expression_run; try eassumption.
  - apply funcTextFor_short; simpl; eassumption.
  - simpl. exact Hcrawl.
Qed.

(** Witness for C6: the call [foo(1, 2)] of the scenario, whose
    definition has eight lines. *)
Lemma short_function_is_verbatim_witness :
  List.length (Js.lines fooText) <= 15
  /\ exists r',
      getDefinitionsForNode env "main.ts" fooCall (Some ide) (Some typescript) start
      = (Returned [withContents fooDef fooText], r')
      /\ world r' = 4.
Proof.
  assert (Hshort : List.length (Js.lines fooText) <= 15)
    by (apply Nat.leb_le; reflexivity).
  split; [exact Hshort|].
  apply (short_function_is_verbatim nat env "main.ts" fooCall ide (Some typescript)
           start fooDef [] 1 2 3 4 fooText fooText []);
    try reflexivity.
  exact Hshort.
Defined.

(** C2 (long functions, signature only): the strategy computes the
    signature of a long function but does not put it into the snippet.
    For [bar], seventeen lines with a declaration and a body the parser
    recognises, the text cut at the body is handed to the type crawler
    only; the snippet for [bar] holds all seventeen lines. *)
Theorem long_function_keeps_its_body :
  15 < List.length (Js.lines barText)
  /\ signatureOf env (parse "lib.ts" barText) = Some barSignature
  /\ fst (getDefinitionsForNode env "main.ts" barCall (Some ide) (Some typescript) start)
     = Returned [withContents barDef barText]
  /\ In (CallCrawlTypes (withContents barDef barSignature))
        (calls (snd (getDefinitionsForNode env "main.ts" barCall (Some ide)
                       (Some typescript) start)))
  /\ barText <> barSignature.
Proof.
  split; [apply Nat.ltb_lt; reflexivity|].
  split; [reflexivity|].
  split; [reflexivity|].
  split; [vm_compute; tauto|].
  discriminate.
Qed.

(** C7 (long functions, first line): for [baz], seventeen lines that do
    not parse, the first line is handed to the type crawler only; the
    snippet for [baz] holds all seventeen lines. *)
Theorem unparsed_function_keeps_its_body :
  15 < List.length (Js.lines bazText)
  /\ parse "lib.ts" bazText = None
  /\ hd EmptyString (Js.lines bazText) = "baz = ((("
  /\ fst (getDefinitionsForNode env "main.ts" bazCall (Some ide) (Some typescript) start)
     = Returned [withContents bazDef bazText]
  /\ In (CallCrawlTypes (withContents bazDef "baz = ((("))
        (calls (snd (getDefinitionsForNode env "main.ts" bazCall (Some ide)
                       (Some typescript) start)))
  /\ bazText <> "baz = (((".
Proof.
  split; [apply Nat.ltb_lt; reflexivity|].
  split; [reflexivity|].
  split; [reflexivity|].
  split; [reflexivity|].
  split; [vm_compute; tauto|].
  discriminate.
Qed.

(** The aggregator calls the strategy with the uri and the node only.
    Without the ide the strategy finds nothing: it stops at a node that
    resolves nothing, and throws as soon as a definition resolves. *)
Lemma getDefinitionsForNode_without_ide :
  forall (W : Type) (env : Collaborators W) uri node lang (r : Run W),
    (exists e r', getDefinitionsForNode env uri node None lang r = (Thrown e, r'))
    \/ (exists r', getDefinitionsForNode env uri node None lang r = (Returned [], r')).
Proof.
  intros W env uri node lang r. unfold getDefinitionsForNode.
  repeat match goal with |- context [if ?c then _ else _] => destruct c end;
    try (right; eexists; reflexivity);
    unfold bind, member, throw;
    match goal with |- context [awaitExecuteGotoProvider env ?i r] =>
      destruct (awaitExecuteGotoProvider env i r) as [[[|def more]|e] r1] end;
    try (right; eexists; reflexivity); left; eexists _, _; reflexivity.
Qed.

Lemma forEachNode_without_ide :
  forall (W : Type) (env : Collaborators W) filepath (ide : IDE W) nodes results
         (r : Run W),
    (exists e r', forEachNode env filepath ide nodes results r = (Thrown e, r'))
    \/ (exists r', forEachNode env filepath ide nodes results r = (Returned results, r')).
Proof.
  intros W env filepath ide nodes. induction nodes as [|node rest IH]; intros results r.
  - right. exists r. reflexivity.
  - destruct (getDefinitionsForNode_without_ide W env filepath node None r)
      as [[e [r1 He]] | [r1 Hnil]].
    + left. exists e, r1. now apply forEachNode_stop.
    + rewrite (forEachNode_skip env filepath ide node rest results r r1 Hnil).
      apply IH.
Qed.

(** Hence the entry point, as it is written, returns the empty sequence
    on every input. *)
Lemma getDefinitionsFromLsp_finds_nothing :
  forall (W : Type) (env : Collaborators W) filepath contents cursorIndex
         (ide : IDE W) (r : Run W),
    fst (getDefinitionsFromLsp env filepath contents cursorIndex ide r) = Returned [].
Proof.
  intros W env filepath contents cursorIndex ide r.
  rewrite getDefinitionsFromLsp_unfold. unfold tryCatch.
  rewrite getDefinitionsFromLsp_try_unfold. unfold bind.
  destruct (awaitGetAst env filepath contents r) as [[[ast|]|e] r1]; try reflexivity.
  destruct (awaitGetTreePathAtCursor env ast cursorIndex r1) as [[[treePath|]|e] r2];
    try reflexivity.
  destruct (forEachNode_without_ide W env filepath ide (rev treePath) [] r2)
    as [[e [r3 He]] | [r3 Hnil]].
  - rewrite He. reflexivity.
  - rewrite Hnil. reflexivity.
Qed.

(** C4, as stated, fails: the cursor is inside [new Widget()], the name
    resolves to the class in [widget.ts] and that range can be read, yet
    the sequence the entry point returns has no snippet for it that
    begins with the comment.  (The strategy is called without the ide
    and throws when it is about to read the class.)  And the strategy
    itself, given the ide and the language, puts no comment in front of
    the class when the new-expression has no identifier child, as in
    [new (makeWidgetClass())]. *)
Lemma widget_comment_is_not_returned :
  pathAt newTree 5 = Some [Tree.rootNode newTree; newWidget;
                           leaf "identifier" 0 4 0 10 4 "Widget"]
  /\ definitionAt (GotoInput.mk "new.ts" 0 10 executeDefinitionProvider) = [widgetDef]
  /\ fileText "widget.ts" (RangeInFile.range widgetDef) = Returned widgetText
  /\ (exists snippets r',
      getDefinitionsFromLsp env "new.ts" newText 5 ide start = (Returned snippets, r')
      /\ ~ exists s, In s snippets
                     /\ AutocompleteSnippet.filepath s = "widget.ts"
                     /\ AutocompleteSnippet.range s = RangeInFile.range widgetDef
                     /\ String.prefix "// Widget:" (AutocompleteSnippet.contents s) = true)
  /\ fst (getDefinitionsForNode env "anonymous.ts" newAnonymous (Some ide)
           (Some typescript) start)
     = Returned [withContents widgetDef (Js.trim widgetText); colorDef]
  /\ String.prefix "//" (Js.trim widgetText) = false.
Proof.
  split; [reflexivity|]. split; [reflexivity|]. split; [reflexivity|].
  split; [|split; reflexivity].
  eexists _, _. split; [vm_compute; reflexivity|].
  intros [s [Hin _]]. exact Hin.
Qed.

(** C4, amended: given the ide and the language, the strategy answers a
    new-expression that has an identifier child with a non-empty text,
    whose definition resolves and can be read, with the resolved range
    first; its contents are the comment token of the language, a space,
    the text of the identifier, a colon and a line break, followed by the
    trimmed text of the definition.  The crawled type definitions
    follow. *)
Theorem new_expression_comment :
  forall (W : Type) (env : Collaborators W) (uri : string) (node : SyntaxNode)
         (ide : IDE W) (lang : AutocompleteLanguageInfo.t) (r : Run W)
         (classNameNode : SyntaxNode) (classDef : RangeInFile.t)
         (more : list RangeInFile.t) (w1 w2 w3 : W) (contents : string)
         (definitions : list RangeInFileWithContents.t),
    Node.type node = "new_expression" ->
    find (fun child => String.eqb (Node.type child) "identifier") (Node.children node)
    = Some classNameNode ->
    Node.text classNameNode <> EmptyString ->
    executeGotoProvider env
      (GotoInput.mk uri (Point.row (Node.endPosition classNameNode))
         (Point.column (Node.endPosition classNameNode)) executeDefinitionProvider)
      (world r) = (Returned (classDef :: more), w1) ->
    readRangeInFile ide (RangeInFile.filepath classDef) (RangeInFile.range classDef) w1
    = (Returned contents, w2) ->
    crawlTypes env (withContents classDef contents) ide w2 = (Returned definitions, w3) ->
    exists r',
      getDefinitionsForNode env uri node (Some ide) (Some lang) r
      = (Returned
           (withContents classDef
              (AutocompleteLanguageInfo.singleLineComment lang ++ " "
                 ++ Node.text classNameNode ++ ":" ++ String Js.newline EmptyString
                 ++ Js.trim contents)
              :: definitions), r')
      /\ world r' = w3.
Proof.
  intros W env uri node ide lang r classNameNode classDef more w1 w2 w3 contents
         definitions Htype Hfind Hname Hgoto Hread Hcrawl.
  unfold getDefinitionsForNode. rewrite Htype. decide_cases.
  rewrite Hfind.
  erewrite bind_returned; [| apply await_run; exact Hgoto].
  unfold member. unfold bind at 1. unfold ret at 1.
  erewrite bind_returned; [| apply await_run; simpl; exact Hread].
  apply String.eqb_neq in Hname. rewrite Hname.
  unfold bind at 1. unfold bind at 1. unfold ret at 1. unfold ret at 1.
  erewrite bind_returned; [| apply await_run; simpl; exact Hcrawl].
  assert (Hfilter : filter truthy definitions = definitions).
  { clear. induction definitions as [|d ds IH]; simpl; [reflexivity | now rewrite IH]. }
  rewrite Hfilter.
  match goal with
  | |- context [promiseAll (materialize ?i) (inr ?f :: map inr ?ds)] =>
      change (promiseAll (materialize i) (inr f :: map inr ds))
        with (promiseAll (materialize i) (map inr (f :: ds)))
  end.
  rewrite promiseAll_materialized.
  eexists. split.
  - apply (f_equal2 pair); [|reflexivity].
    apply (f_equal (fun text =>
                      Returned (withContents classDef text :: definitions))).
    now rewrite !string_append_assoc.
  - reflexivity.
Qed.

(** Witness for C4, amended: [new Widget()] of the scenario. *)
Lemma new_expression_comment_witness :
  "Widget" <> EmptyString
  /\ exists r',
      getDefinitionsForNode env "new.ts" newWidget (Some ide) (Some typescript) start
      = (Returned
           [withContents widgetDef ("// Widget:" ++ String Js.newline EmptyString
                                      ++ Js.trim widgetText);
            colorDef], r')
      /\ world r' = 3.
Proof.
  assert (Hname : "Widget" <> EmptyString) by discriminate.
  split; [exact Hname|].
  apply (new_expression_comment nat env "new.ts" newWidget ide typescript start
           (leaf "identifier" 0 4 0 10 4 "Widget") widgetDef [] 1 2 3 widgetText
           [colorDef]);
    try reflexivity.
  exact Hname.
Defined.

Section AwaitFacts.

Context {W : Type}.

Lemma await_inv {A} (record : Completion A -> Call)
      (call : W -> Completion A * W) (r : Run W) a r' :
  await record call r = (Returned a, r') ->
  exists w, call (world r) = (Returned a, w)
            /\ r' = mkRun w (console r) (calls r ++ [record (Returned a)]).
Proof.
  unfold await. destruct (call (world r)) as [outcome w]. intros H.
  inversion H; subst. exists w. split; reflexivity.
Qed.

End AwaitFacts.

(** ** Further properties of the code *)

Lemma string_append_cancel (p x y : string) :
  (p ++ x = p ++ y)%string -> x = y.
Proof.
  induction p as [|c p IH]; simpl; intros H; [exact H|].
  inversion H. now apply IH.
Qed.

Lemma providerNameText_separates (n1 n2 : GotoProviderName) (x y : string) :
  (providerNameText n1 ++ x = providerNameText n2 ++ y)%string -> n1 = n2.
Proof.
  destruct n1, n2; simpl; intros H; try reflexivity; discriminate H.
Qed.

Lemma numberToString_injective (n m : nat) :
  Js.numberToString n = Js.numberToString m -> n = m.
Proof.
  unfold Js.numberToString. intros H.
  assert (Hu : Nat.to_uint n = Nat.to_uint m).
  { apply (f_equal NilEmpty.uint_of_string) in H.
    rewrite !NilEmpty.usu in H. now inversion H. }
  apply (f_equal Nat.of_uint) in Hu.
  now rewrite !DecimalNat.Unsigned.of_to in Hu.
Qed.

(** X1 (when two queries share a cache key): two queries have the same
    key exactly when they ask the same provider and the digits of line
    and column, written one after the other, are the same; the uri plays
    no part.  For queries on the same line the key tells the columns
    apart. *)
Theorem gotoInputKey_collisions :
  forall a b : GotoInput.t,
    (gotoInputKey a = gotoInputKey b
     <-> GotoInput.name a = GotoInput.name b
         /\ (Js.numberToString (GotoInput.line a)
               ++ Js.numberToString (GotoInput.character a)
             = Js.numberToString (GotoInput.line b)
                 ++ Js.numberToString (GotoInput.character b))%string)
    /\ (gotoInputKey a = gotoInputKey b ->
        GotoInput.line a = GotoInput.line b ->
        GotoInput.character a = GotoInput.character b).
Proof.
  intros a b.
  assert (Hiff : gotoInputKey a = gotoInputKey b
     <-> GotoInput.name a = GotoInput.name b
         /\ (Js.numberToString (GotoInput.line a)
               ++ Js.numberToString (GotoInput.character a)
             = Js.numberToString (GotoInput.line b)
                 ++ Js.numberToString (GotoInput.character b))%string).
  { unfold gotoInputKey. split.
    - intros H. pose proof (providerNameText_separates _ _ _ _ H) as Hname.
      split; [exact Hname|]. rewrite Hname in H.
      apply string_append_cancel in H. now apply string_append_cancel in H.
    - intros [Hname Hdigits]. now rewrite Hname, Hdigits. }
  split; [exact Hiff|].
  intros Hkey Hline. apply Hiff in Hkey. destruct Hkey as [_ Hdigits].
  rewrite Hline in Hdigits. apply string_append_cancel in Hdigits.
  now apply numberToString_injective.
Qed.

(** Witness for X1: two queries on line 7 of different files. *)
Lemma gotoInputKey_collisions_witness :
  gotoInputKey (GotoInput.mk "lib.ts" 7 2 executeDefinitionProvider)
  = gotoInputKey (GotoInput.mk "widget.ts" 7 2 executeDefinitionProvider)
  /\ GotoInput.character (GotoInput.mk "lib.ts" 7 2 executeDefinitionProvider)
     = GotoInput.character (GotoInput.mk "widget.ts" 7 2 executeDefinitionProvider).
Proof.
  assert (Hkey : gotoInputKey (GotoInput.mk "lib.ts" 7 2 executeDefinitionProvider)
                 = gotoInputKey (GotoInput.mk "widget.ts" 7 2 executeDefinitionProvider))
    by reflexivity.
  split; [exact Hkey|].
  exact (proj2 (gotoInputKey_collisions
                  (GotoInput.mk "lib.ts" 7 2 executeDefinitionProvider)
                  (GotoInput.mk "widget.ts" 7 2 executeDefinitionProvider))
               Hkey eq_refl).
Defined.

Section StrategyEdges.

Context {W : Type} (env : Collaborators W).

Lemma gotoQueryFor_cases uri node query :
  gotoQueryFor uri node = Some query ->
  (Node.type node = "call_expression"
   /\ query = GotoInput.mk uri (Point.row (Node.startPosition node))
                (Point.column (Node.startPosition node)) executeDefinitionProvider)
  \/ (Node.type node = "new_expression"
      /\ query = GotoInput.mk uri
                   (Point.row (Node.endPosition
                      match find (fun child => String.eqb (Node.type child) "identifier")
                                 (Node.children node) with
                      | Some c => c | None => node end))
                   (Point.column (Node.endPosition
                      match find (fun child => String.eqb (Node.type child) "identifier")
                                 (Node.children node) with
                      | Some c => c | None => node end))
                   executeDefinitionProvider).
Proof.
  unfold gotoQueryFor.
  destruct (String.eqb_spec (Node.type node) "call_expression") as [Hc|Hc].
  - intros H; inversion H. left. split; [exact Hc | reflexivity].
  - destruct (String.eqb_spec (Node.type node) "new_expression") as [Hn|Hn].
    + intros H; inversion H. right. split; [exact Hn | reflexivity].
    + discriminate.
Qed.

Lemma gotoQueryFor_none uri node :
  gotoQueryFor uri node = None ->
  Node.type node <> "call_expression" /\ Node.type node <> "new_expression".
Proof.
  unfold gotoQueryFor.
  destruct (String.eqb_spec (Node.type node) "call_expression") as [Hc|Hc];
    [discriminate|].
  destruct (String.eqb_spec (Node.type node) "new_expression") as [Hn|Hn];
    [discriminate|].
  intros _. split; assumption.
Qed.

Lemma other_node_run uri node ide lang (r : Run W) :
  Node.type node <> "call_expression" ->
  Node.type node <> "new_expression" ->
  getDefinitionsForNode env uri node ide lang r = (Returned [], r).
Proof.
  intros Hc Hn. unfold getDefinitionsForNode.
  apply String.eqb_neq in Hc. apply String.eqb_neq in Hn. rewrite Hc, Hn.
  destruct (String.eqb _ "variable_declarator"); [reflexivity|].
  destruct (String.eqb _ "impl_item"); reflexivity.
Qed.

Lemma miss_run uri node ide lang (r : Run W) query w :
  gotoQueryFor uri node = Some query ->
  executeGotoProvider env query (world r) = (Returned [], w) ->
  getDefinitionsForNode env uri node ide lang r
  = (Returned [], mkRun w (console r) (calls r ++ [CallExecuteGotoProvider query])).
Proof.
  intros Hq Hgoto. apply gotoQueryFor_cases in Hq.
  destruct Hq as [[Htype ->] | [Htype ->]];
    unfold getDefinitionsForNode; rewrite Htype; decide_cases;
    (erewrite bind_returned; [| apply await_run; exact Hgoto]); reflexivity.
Qed.

Lemma missing_ide_run uri node lang (r : Run W) query def more w1 :
  gotoQueryFor uri node = Some query ->
  executeGotoProvider env query (world r) = (Returned (def :: more), w1) ->
  getDefinitionsForNode env uri node None lang r
  = (Thrown missingIde,
     mkRun w1 (console r) (calls r ++ [CallExecuteGotoProvider query])).
Proof.
  intros Hq Hgoto. apply gotoQueryFor_cases in Hq.
  destruct Hq as [[Htype ->] | [Htype ->]];
    unfold getDefinitionsForNode; rewrite Htype; decide_cases;
    (erewrite bind_returned; [| apply await_run; exact Hgoto]); reflexivity.
Qed.

End StrategyEdges.

(** X2 (nodes of other kinds): for a node that is neither a call
    expression nor a new-expression the strategy returns the empty list
    and does nothing else: no collaborator is called, the world and the
    console stay as they were, and neither the ide nor the language is
    needed. *)
Theorem getDefinitionsForNode_other_nodes :
  forall (W : Type) (env : Collaborators W) (uri : string) (node : SyntaxNode)
         (ide : option (IDE W)) (lang : option AutocompleteLanguageInfo.t)
         (r : Run W),
    Node.type node <> "call_expression" ->
    Node.type node <> "new_expression" ->
    getDefinitionsForNode env uri node ide lang r = (Returned [], r).
Proof. intros W env uri node ide lang r. apply other_node_run. Qed.

(** Witness for X2: the root node of [main.ts], without ide and language. *)
Lemma getDefinitionsForNode_other_nodes_witness :
  getDefinitionsForNode env "main.ts" (Tree.rootNode mainTree) None None start
  = (Returned [], start).
Proof.
  apply (getDefinitionsForNode_other_nodes nat env "main.ts" (Tree.rootNode mainTree)
           None None start); discriminate.
Defined.

(** X3 (nothing resolves): when the resolver has no location for the
    node's query, a call expression or new-expression gives the empty
    list after that single query; nothing is read, the type crawler is
    not called, and neither the ide nor the language is needed. *)
Theorem getDefinitionsForNode_resolution_miss :
  forall (W : Type) (env : Collaborators W) (uri : string) (node : SyntaxNode)
         (ide : option (IDE W)) (lang : option AutocompleteLanguageInfo.t)
         (r : Run W) (query : GotoInput.t) (w : W),
    gotoQueryFor uri node = Some query ->
    executeGotoProvider env query (world r) = (Returned [], w) ->
    getDefinitionsForNode env uri node ide lang r
    = (Returned [], mkRun w (console r) (calls r ++ [CallExecuteGotoProvider query])).
Proof. intros W env uri node ide lang r query w. apply miss_run. Qed.

(** Witness for X3: a call in [other.ts], a file the resolver knows
    nothing about, crawled without ide and language. *)
Lemma getDefinitionsForNode_resolution_miss_witness :
  getDefinitionsForNode env "other.ts" fooCall None None start
  = (Returned [],
     mkRun 1 [] ([] ++ [CallExecuteGotoProvider
                          (GotoInput.mk "other.ts" 0 0 executeDefinitionProvider)])).
Proof.
  apply (getDefinitionsForNode_resolution_miss nat env "other.ts" fooCall None None
           start (GotoInput.mk "other.ts" 0 0 executeDefinitionProvider) 1);
    reflexivity.
Defined.

(** X4 (only the first location counts): the strategy behaves the same
    when the resolver hands over the first location only; whatever else
    the resolver returns is never looked at. *)
Theorem getDefinitionsForNode_first_location_only :
  forall (W : Type) (env : Collaborators W) (uri : string) (node : SyntaxNode)
         (ide : option (IDE W)) (lang : option AutocompleteLanguageInfo.t)
         (r : Run W),
    getDefinitionsForNode (firstLocationOnly env) uri node ide lang r
    = getDefinitionsForNode env uri node ide lang r.
Proof.
  intros W env uri node ide lang r. unfold getDefinitionsForNode.
  repeat match goal with |- context [if ?c then _ else _] => destruct c end;
    try reflexivity;
    unfold bind, awaitExecuteGotoProvider, await; simpl;
    match goal with |- context [executeGotoProvider env ?q (world r)] =>
      destruct (executeGotoProvider env q (world r)) as [[[|def more]|e] w] end;
    reflexivity.
Qed.

Lemma split_pieces_clean (sep : ascii) (s : string) :
  Forall (fun piece => Js.split sep piece = [piece]) (Js.split sep s).
Proof.
  induction s as [|c rest IH]; simpl.
  - constructor; [reflexivity | constructor].
  - destruct (Ascii.eqb c sep) eqn:Hc.
    + constructor; [reflexivity | exact IH].
    + destruct (Js.split sep rest) as [|piece pieces].
      * constructor; [simpl; now rewrite Hc | constructor].
      * inversion IH as [|? ? Hpiece Hpieces]; subst.
        constructor; [simpl; now rewrite Hc, Hpiece | exact Hpieces].
Qed.

Lemma first_line_is_one_line (s : string) :
  Js.lines (hd EmptyString (Js.lines s)) = [hd EmptyString (Js.lines s)].
Proof.
  unfold Js.lines. pose proof (split_pieces_clean Js.newline s) as H.
  destruct (Js.split Js.newline s) as [|piece pieces]; [reflexivity|].
  inversion H; subst. assumption.
Qed.

Lemma trimEnd_idempotent (s : string) : Js.trimEnd (Js.trimEnd s) = Js.trimEnd s.
Proof.
  induction s as [|c rest IH]; simpl; [reflexivity|].
  destruct (Js.trimEnd rest) as [|k kept] eqn:Hrest.
  - destruct (Js.isWhiteSpace c) eqn:Hc; simpl; [reflexivity | now rewrite Hc].
  - simpl in IH. simpl. destruct (Js.trimEnd kept) as [|k' kept'] eqn:Hkept.
    + destruct (Js.isWhiteSpace k); [discriminate IH | now rewrite IH].
    + now rewrite IH.
Qed.

Lemma trimStart_startsClean (s : string) : startsClean (Js.trimStart s).
Proof.
  induction s as [|c rest IH]; simpl; [exact I|].
  destruct (Js.isWhiteSpace c) eqn:Hc; [exact IH | exact Hc].
Qed.

Lemma trimEnd_startsClean (s : string) : startsClean s -> startsClean (Js.trimEnd s).
Proof.
  destruct s as [|c rest]; simpl; [trivial|]. intros Hc.
  destruct (Js.trimEnd rest); [now rewrite Hc | exact Hc].
Qed.

Lemma trimStart_of_clean (s : string) : startsClean s -> Js.trimStart s = s.
Proof. destruct s as [|c rest]; simpl; [trivial|]. now intros ->. Qed.

Lemma trim_idempotent (s : string) : Js.trim (Js.trim s) = Js.trim s.
Proof.
  unfold Js.trim.
  rewrite (trimStart_of_clean (Js.trimEnd (Js.trimStart s))).
  - apply trimEnd_idempotent.
  - apply trimEnd_startsClean, trimStart_startsClean.
Qed.

Lemma trimStart_length (s : string) : String.length (Js.trimStart s) <= String.length s.
Proof.
  induction s as [|c rest IH]; simpl; [lia|].
  destruct (Js.isWhiteSpace c); simpl; lia.
Qed.

Lemma trimEnd_length (s : string) : String.length (Js.trimEnd s) <= String.length s.
Proof.
  induction s as [|c rest IH]; simpl; [lia|].
  destruct (Js.trimEnd rest); [destruct (Js.isWhiteSpace c)|]; simpl in *; lia.
Qed.

Lemma slice0_length (n : nat) (s : string) :
  String.length (Js.slice0 n s) <= n /\ String.length (Js.slice0 n s) <= String.length s.
Proof.
  revert s. induction n as [|n IH]; intros s; simpl; [lia|].
  destruct s as [|c rest]; simpl; [lia|]. specialize (IH rest). lia.
Qed.

(** X5 (the signature): whenever the strategy finds a signature in a
    parsed fragment, the signature has no white space at either end (to
    trim it again changes nothing) and is not longer than the text of the
    fragment's root node. *)
Theorem signatureOf_is_trimmed :
  forall (W : Type) (env : Collaborators W) (funRootAst : option Tree.t)
         (signature : string),
    signatureOf env funRootAst = Some signature ->
    Js.trim signature = signature
    /\ exists ast, funRootAst = Some ast
                   /\ String.length signature
                      <= String.length (Node.text (Tree.rootNode ast)).
Proof.
  intros W env funRootAst signature. unfold signatureOf.
  destruct funRootAst as [ast|]; [|discriminate].
  destruct (findChildren env (Tree.rootNode ast) (isFunctionDeclaration env) 1)
    as [|funNode ?]; [discriminate|].
  destruct (findChildren env funNode (isFunctionBlock env) 1)
    as [|block ?]; [discriminate|].
  intros H; inversion H; subst; clear H. split; [apply trim_idempotent|].
  exists ast. split; [reflexivity|]. unfold Js.trim.
  pose proof (trimEnd_length
                (Js.trimStart (Js.slice0 (Node.startIndex block)
                                         (Node.text (Tree.rootNode ast))))).
  pose proof (trimStart_length (Js.slice0 (Node.startIndex block)
                                          (Node.text (Tree.rootNode ast)))).
  pose proof (slice0_length (Node.startIndex block) (Node.text (Tree.rootNode ast))).
  lia.
Qed.

(** Witness for X5: the signature of [bar]. *)
Lemma signatureOf_is_trimmed_witness :
  Js.trim barSignature = barSignature
  /\ exists ast, Some barTree = Some ast
                 /\ String.length barSignature
                    <= String.length (Node.text (Tree.rootNode ast)).
Proof.
  apply (signatureOf_is_trimmed nat env (Some barTree) barSignature). reflexivity.
Defined.

(** X6 (the text prepared for the type crawler): once the resolved range
    has been read, a text of at most fifteen lines is passed on as it is
    and the fragment is not parsed; a longer text is parsed once and
    replaced by its signature or, when there is none, by its first line,
    which is a single line; and when that parse throws, so does the
    preparation. *)
Theorem funcTextFor_cases :
  forall (W : Type) (env : Collaborators W) (ide : IDE W) (funDef : RangeInFile.t)
         (r : Run W) (funcText : string) (w : W),
    readRangeInFile ide (RangeInFile.filepath funDef) (RangeInFile.range funDef) (world r)
    = (Returned funcText, w) ->
    let readCall := CallReadRangeInFile (RangeInFile.filepath funDef)
                      (RangeInFile.range funDef) (Returned funcText) in
    let parseCall := CallGetAst (RangeInFile.filepath funDef) funcText in
    (List.length (Js.lines funcText) <= 15 ->
     funcTextFor env ide funDef r
     = (Returned funcText, mkRun w (console r) (calls r ++ [readCall])))
    /\ (15 < List.length (Js.lines funcText) ->
        forall funRootAst w',
          getAst env (RangeInFile.filepath funDef) funcText w = (Returned funRootAst, w') ->
          funcTextFor env ide funDef r
          = (Returned (match signatureOf env funRootAst with
                       | Some signature => signature
                       | None => hd EmptyString (Js.lines funcText)
                       end),
             mkRun w' (console r) (calls r ++ [readCall; parseCall])))
    /\ (15 < List.length (Js.lines funcText) ->
        forall e w',
          getAst env (RangeInFile.filepath funDef) funcText w = (Thrown e, w') ->
          funcTextFor env ide funDef r
          = (Thrown e, mkRun w' (console r) (calls r ++ [readCall; parseCall])))
    /\ List.length (Js.lines (hd EmptyString (Js.lines funcText))) = 1.
Proof.
  intros W env ide funDef r funcText w Hread readCall parseCall.
  split; [intros Hshort; now apply funcTextFor_short|].
  assert (Hstep : forall (k : string -> M W string),
             bind (awaitReadRangeInFile ide (RangeInFile.filepath funDef)
                     (RangeInFile.range funDef)) k r
             = k funcText (mkRun w (console r) (calls r ++ [readCall]))).
  { intros k. apply bind_returned. apply await_run. exact Hread. }
  split; [|split].
  - intros Hlong funRootAst w' Hparse. unfold funcTextFor. rewrite Hstep.
    apply Nat.ltb_lt in Hlong. rewrite Hlong.
    erewrite bind_returned; [| apply await_run; simpl; exact Hparse].
    simpl. rewrite <- app_assoc. destruct (signatureOf env funRootAst); reflexivity.
  - intros Hlong e w' Hparse. unfold funcTextFor. rewrite Hstep.
    apply Nat.ltb_lt in Hlong. rewrite Hlong.
    erewrite bind_thrown; [| apply await_run; simpl; exact Hparse].
    simpl. now rewrite <- app_assoc.
  - now rewrite first_line_is_one_line.
Qed.

(** Witness for X6: the long definition of [bar], cut to its signature. *)
Lemma funcTextFor_cases_witness :
  15 < List.length (Js.lines barText)
  /\ funcTextFor env ide barDef start
     = (Returned barSignature,
        mkRun 2 [] ([] ++ [CallReadRangeInFile "lib.ts" (RangeInFile.range barDef)
                             (Returned barText);
                           CallGetAst "lib.ts" barText])).
Proof.
  assert (Hlong : 15 < List.length (Js.lines barText))
    by (apply Nat.ltb_lt; reflexivity).
  split; [exact Hlong|].
  assert (Hread : readRangeInFile ide (RangeInFile.filepath barDef)
                    (RangeInFile.range barDef) (world start) = (Returned barText, 1))
    by reflexivity.
  exact (proj1 (proj2 (funcTextFor_cases nat env ide barDef start barText 1 Hread))
               Hlong (Some barTree) 2 eq_refl).
Defined.

Section StrategyRuns.

Context {W : Type} (env : Collaborators W).

Lemma resolved_read_fails uri node (ide : IDE W) lang (r : Run W)
      query def more w1 e w2 :
  gotoQueryFor uri node = Some query ->
  executeGotoProvider env query (world r) = (Returned (def :: more), w1) ->
  readRangeInFile ide (RangeInFile.filepath def) (RangeInFile.range def) w1
  = (Thrown e, w2) ->
  getDefinitionsForNode env uri node (Some ide) lang r
  = (Thrown e,
     mkRun w2 (console r)
           (calls r ++ [CallExecuteGotoProvider query;
                        CallReadRangeInFile (RangeInFile.filepath def)
                          (RangeInFile.range def) (Thrown e)])).
Proof.
  intros Hq Hgoto Hread. apply gotoQueryFor_cases in Hq.
  destruct Hq as [[Htype ->] | [Htype ->]];
    unfold getDefinitionsForNode; rewrite Htype; decide_cases;
    (erewrite bind_returned; [| apply await_run; exact Hgoto]);
    unfold member; unfold bind at 1; unfold ret at 1.
  - eapply eq_trans.
    + apply bind_thrown. unfold funcTextFor. apply bind_thrown.
      apply await_run. exact Hread.
    + simpl. now rewrite <- app_assoc.
  - eapply eq_trans.
    + apply bind_thrown. apply await_run. exact Hread.
    + simpl. now rewrite <- app_assoc.
Qed.

Lemma resolved_crawl_fails uri node (ide : IDE W) lang (r : Run W)
      funDef more w1 funcText r2 e w3 :
  Node.type node = "call_expression" ->
  executeGotoProvider env
    (GotoInput.mk uri (Point.row (Node.startPosition node))
       (Point.column (Node.startPosition node)) executeDefinitionProvider)
    (world r) = (Returned (funDef :: more), w1) ->
  funcTextFor env ide funDef
    (mkRun w1 (console r)
       (calls r ++ [CallExecuteGotoProvider
                      (GotoInput.mk uri (Point.row (Node.startPosition node))
                         (Point.column (Node.startPosition node))
                         executeDefinitionProvider)]))
  = (Returned funcText, r2) ->
  crawlTypes env (withContents funDef funcText) ide (world r2) = (Thrown e, w3) ->
  getDefinitionsForNode env uri node (Some ide) lang r
  = (Thrown e,
     mkRun w3 (console r2)
           (calls r2 ++ [CallCrawlTypes (withContents funDef funcText)])).
Proof.
  intros Htype Hgoto Htext Hcrawl.
  unfold getDefinitionsForNode. rewrite Htype. decide_cases.
  erewrite bind_returned; [| apply await_run; exact Hgoto].
  unfold member. unfold bind at 1. unfold ret at 1.
  erewrite bind_returned; [| exact Htext].
  eapply eq_trans.
  - apply bind_thrown. apply await_run. exact Hcrawl.
  - reflexivity.
Qed.

Lemma call_expression_full_run uri node (ide : IDE W) lang (r : Run W)
      funDef more w1 funcText r2 typeDefs w3 text w4 :
  Node.type node = "call_expression" ->
  executeGotoProvider env
    (GotoInput.mk uri (Point.row (Node.startPosition node))
       (Point.column (Node.startPosition node)) executeDefinitionProvider)
    (world r) = (Returned (funDef :: more), w1) ->
  funcTextFor env ide funDef
    (mkRun w1 (console r)
       (calls r ++ [CallExecuteGotoProvider
                      (GotoInput.mk uri (Point.row (Node.startPosition node))
                         (Point.column (Node.startPosition node))
                         executeDefinitionProvider)]))
  = (Returned funcText, r2) ->
  crawlTypes env (withContents funDef funcText) ide (world r2)
  = (Returned typeDefs, w3) ->
  readRangeInFile ide (RangeInFile.filepath funDef) (RangeInFile.range funDef) w3
  = (Returned text, w4) ->
  getDefinitionsForNode env uri node (Some ide) lang r
  = (Returned (withContents funDef text :: typeDefs),
     mkRun w4 (console r2)
           (calls r2 ++ [CallCrawlTypes (withContents funDef funcText);
                         CallReadRangeInFile (RangeInFile.filepath funDef)
                           (RangeInFile.range funDef) (Returned text)])).
Proof.
  intros Htype Hgoto Htext Hcrawl Hread.
  unfold getDefinitionsForNode. rewrite Htype. decide_cases.
  erewrite bind_returned; [| apply await_run; exact Hgoto].
  unfold member. unfold bind at 1. unfold ret at 1.
  erewrite bind_returned; [| exact Htext].
  erewrite bind_returned; [| apply await_run; exact Hcrawl].
  erewrite promiseAll_cons_returned; [| apply materialize_bare; simpl; exact Hread].
  unfold bind. rewrite promiseAll_materialized. simpl.
  now rewrite <- app_assoc.
Qed.

End StrategyRuns.

(** X7 (a read that fails): when the node's query resolves and the
    resolved range cannot be read, the strategy throws the error of the
    read; it has made the query and the read and nothing else, so the
    type crawler is not called and no snippet is produced. *)
Theorem getDefinitionsForNode_read_failure :
  forall (W : Type) (env : Collaborators W) (uri : string) (node : SyntaxNode)
         (ide : IDE W) (lang : option AutocompleteLanguageInfo.t) (r : Run W)
         (query : GotoInput.t) (def : RangeInFile.t) (more : list RangeInFile.t)
         (w1 w2 : W) (e : Js.Error),
    gotoQueryFor uri node = Some query ->
    executeGotoProvider env query (world r) = (Returned (def :: more), w1) ->
    readRangeInFile ide (RangeInFile.filepath def) (RangeInFile.range def) w1
    = (Thrown e, w2) ->
    getDefinitionsForNode env uri node (Some ide) lang r
    = (Thrown e,
       mkRun w2 (console r)
             (calls r ++ [CallExecuteGotoProvider query;
                          CallReadRangeInFile (RangeInFile.filepath def)
                            (RangeInFile.range def) (Thrown e)])).
Proof.
  intros W env uri node ide lang r query def more w1 w2 e.
  apply resolved_read_fails.
Qed.

(** Witness for X7: [new Widget()] with a resolver that points to a file
    that is gone. *)
Lemma getDefinitionsForNode_read_failure_witness :
  getDefinitionsForNode Faults.staleServer "new.ts" newWidget (Some ide)
    (Some typescript) start
  = (Thrown (Js.Failure "ENOENT"),
     mkRun 2 []
       ([] ++ [CallExecuteGotoProvider
                 (GotoInput.mk "new.ts" 0 10 executeDefinitionProvider);
               CallReadRangeInFile "gone.ts" (span 0 0 1 0)
                 (Thrown (Js.Failure "ENOENT"))])).
Proof.
  apply (getDefinitionsForNode_read_failure nat Faults.staleServer "new.ts" newWidget
           ide (Some typescript) start
           (GotoInput.mk "new.ts" 0 10 executeDefinitionProvider)
           Faults.goneDef [] 1 2 (Js.Failure "ENOENT"));
    reflexivity.
Defined.

(** X8 (a type crawl that fails): for a call expression whose definition
    resolves and is read, a failure of the type crawler makes the
    strategy throw that error; the definition of the function itself is
    lost with it, and its range is not read a second time. *)
Theorem getDefinitionsForNode_crawl_failure :
  forall (W : Type) (env : Collaborators W) (uri : string) (node : SyntaxNode)
         (ide : IDE W) (lang : option AutocompleteLanguageInfo.t) (r r2 : Run W)
         (funDef : RangeInFile.t) (more : list RangeInFile.t) (w1 w3 : W)
         (funcText : string) (e : Js.Error),
    Node.type node = "call_expression" ->
    executeGotoProvider env
      (GotoInput.mk uri (Point.row (Node.startPosition node))
         (Point.column (Node.startPosition node)) executeDefinitionProvider)
      (world r) = (Returned (funDef :: more), w1) ->
    funcTextFor env ide funDef
      (mkRun w1 (console r)
         (calls r ++ [CallExecuteGotoProvider
                        (GotoInput.mk uri (Point.row (Node.startPosition node))
                           (Point.column (Node.startPosition node))
                           executeDefinitionProvider)]))
    = (Returned funcText, r2) ->
    crawlTypes env (withContents funDef funcText) ide (world r2) = (Thrown e, w3) ->
    getDefinitionsForNode env uri node (Some ide) lang r
    = (Thrown e,
       mkRun w3 (console r2)
             (calls r2 ++ [CallCrawlTypes (withContents funDef funcText)])).
Proof.
  intros W env uri node ide lang r r2 funDef more w1 w3 funcText e.
  apply resolved_crawl_fails.
Qed.

(** Witness for X8: [foo(1, 2)] with a type crawler that fails. *)
Lemma getDefinitionsForNode_crawl_failure_witness :
  getDefinitionsForNode Faults.brokenCrawler "main.ts" fooCall (Some ide)
    (Some typescript) start
  = (Thrown (Js.Failure "no grammar"),
     mkRun 3 []
       (([] ++ [CallExecuteGotoProvider
                  (GotoInput.mk "main.ts" 0 0 executeDefinitionProvider)])
          ++ [CallReadRangeInFile "lib.ts" (RangeInFile.range fooDef) (Returned fooText)]
          ++ [CallCrawlTypes (withContents fooDef fooText)])).
Proof.
  apply (getDefinitionsForNode_crawl_failure nat Faults.brokenCrawler "main.ts" fooCall
           ide (Some typescript) start
           (mkRun 2 []
              (([] ++ [CallExecuteGotoProvider
                         (GotoInput.mk "main.ts" 0 0 executeDefinitionProvider)])
                 ++ [CallReadRangeInFile "lib.ts" (RangeInFile.range fooDef)
                       (Returned fooText)]))
           fooDef [] 1 3 fooText (Js.Failure "no grammar"));
    reflexivity.
Defined.

(** X9 (a call expression, whatever its length): when the definition
    resolves, the type crawler is given the prepared text, and then the
    resolved range is read once more; the snippet carries the text of
    this second read, never the prepared text, and it comes first,
    followed by the crawled definitions. *)
Theorem getDefinitionsForNode_call_expression :
  forall (W : Type) (env : Collaborators W) (uri : string) (node : SyntaxNode)
         (ide : IDE W) (lang : option AutocompleteLanguageInfo.t) (r r2 : Run W)
         (funDef : RangeInFile.t) (more : list RangeInFile.t) (w1 w3 w4 : W)
         (funcText text : string) (typeDefs : list RangeInFileWithContents.t),
    Node.type node = "call_expression" ->
    executeGotoProvider env
      (GotoInput.mk uri (Point.row (Node.startPosition node))
         (Point.column (Node.startPosition node)) executeDefinitionProvider)
      (world r) = (Returned (funDef :: more), w1) ->
    funcTextFor env ide funDef
      (mkRun w1 (console r)
         (calls r ++ [CallExecuteGotoProvider
                        (GotoInput.mk uri (Point.row (Node.startPosition node))
                           (Point.column (Node.startPosition node))
                           executeDefinitionProvider)]))
    = (Returned funcText, r2) ->
    crawlTypes env (withContents funDef funcText) ide (world r2)
    = (Returned typeDefs, w3) ->
    readRangeInFile ide (RangeInFile.filepath funDef) (RangeInFile.range funDef) w3
    = (Returned text, w4) ->
    getDefinitionsForNode env uri node (Some ide) lang r
    = (Returned (withContents funDef text :: typeDefs),
       mkRun w4 (console r2)
             (calls r2 ++ [CallCrawlTypes (withContents funDef funcText);
                           CallReadRangeInFile (RangeInFile.filepath funDef)
                             (RangeInFile.range funDef) (Returned text)])).
Proof.
  intros W env uri node ide lang r r2 funDef more w1 w3 w4 funcText text typeDefs.
  apply call_expression_full_run.
Qed.

(** Witness for X9: [bar(1)], whose definition has seventeen lines. *)
Lemma getDefinitionsForNode_call_expression_witness :
  getDefinitionsForNode env "main.ts" barCall (Some ide) (Some typescript) start
  = (Returned [withContents barDef barText],
     mkRun 5 []
       ((([] ++ [CallExecuteGotoProvider
                   (GotoInput.mk "main.ts" 1 0 executeDefinitionProvider)])
           ++ [CallReadRangeInFile "lib.ts" (RangeInFile.range barDef) (Returned barText);
               CallGetAst "lib.ts" barText])
          ++ [CallCrawlTypes (withContents barDef barSignature);
              CallReadRangeInFile "lib.ts" (RangeInFile.range barDef)
                (Returned barText)])).
Proof.
  apply (getDefinitionsForNode_call_expression nat env "main.ts" barCall ide
           (Some typescript) start
           (mkRun 3 []
              (([] ++ [CallExecuteGotoProvider
                         (GotoInput.mk "main.ts" 1 0 executeDefinitionProvider)])
                 ++ [CallReadRangeInFile "lib.ts" (RangeInFile.range barDef)
                       (Returned barText);
                     CallGetAst "lib.ts" barText]))
           barDef [] 1 4 5 barSignature barText []);
    reflexivity.
Defined.

(** X10 (a new-expression without a name): when the new-expression has
    no identifier child, or one whose text is empty, and the definition
    resolves and is read, the first snippet is the resolved range with
    the trimmed text and no comment in front; the language is not needed.
    The type crawler is given the text as read, not trimmed, and the
    range is read once only. *)
Theorem getDefinitionsForNode_unnamed_new_expression :
  forall (W : Type) (env : Collaborators W) (uri : string) (node : SyntaxNode)
         (ide : IDE W) (lang : option AutocompleteLanguageInfo.t) (r : Run W)
         (query : GotoInput.t) (classDef : RangeInFile.t) (more : list RangeInFile.t)
         (w1 w2 w3 : W) (contents : string)
         (definitions : list RangeInFileWithContents.t),
    Node.type node = "new_expression" ->
    match find (fun child => String.eqb (Node.type child) "identifier")
               (Node.children node) with
    | Some classNameNode => Node.text classNameNode = EmptyString
    | None => True
    end ->
    gotoQueryFor uri node = Some query ->
    executeGotoProvider env query (world r) = (Returned (classDef :: more), w1) ->
    readRangeInFile ide (RangeInFile.filepath classDef) (RangeInFile.range classDef) w1
    = (Returned contents, w2) ->
    crawlTypes env (withContents classDef contents) ide w2 = (Returned definitions, w3) ->
    getDefinitionsForNode env uri node (Some ide) lang r
    = (Returned (withContents classDef (Js.trim contents) :: definitions),
       mkRun w3 (console r)
             (calls r ++ [CallExecuteGotoProvider query;
                          CallReadRangeInFile (RangeInFile.filepath classDef)
                            (RangeInFile.range classDef) (Returned contents);
                          CallCrawlTypes (withContents classDef contents)])).
Proof.
  intros W env uri node ide lang r query classDef more w1 w2 w3 contents definitions
         Htype Hname Hq Hgoto Hread Hcrawl.
  apply gotoQueryFor_cases in Hq.
  destruct Hq as [[Hcall _] | [_ ->]]; [rewrite Hcall in Htype; discriminate|].
  unfold getDefinitionsForNode. rewrite Htype. decide_cases.
  erewrite bind_returned; [| apply await_run; exact Hgoto].
  unfold member. unfold bind at 1. unfold ret at 1.
  erewrite bind_returned; [| apply await_run; simpl; exact Hread].
  assert (Hcomment :
            forall k : string -> M W (list RangeInFileWithContents.t),
              bind (match find (fun child => String.eqb (Node.type child) "identifier")
                               (Node.children node) with
                    | None => ret EmptyString
                    | Some c =>
                        if String.eqb (Node.text c) EmptyString then ret EmptyString
                        else bind (member lang "singleLineComment")
                               (fun lang' =>
                                  ret (AutocompleteLanguageInfo.singleLineComment lang'
                                         ++ " " ++ Node.text c ++ ":"
                                         ++ String Js.newline EmptyString)%string)
                    end) k
              = k EmptyString).
  { intros k. destruct (find _ (Node.children node)) as [c|]; [|reflexivity].
    rewrite Hname. reflexivity. }
  rewrite Hcomment.
  erewrite bind_returned; [| apply await_run; simpl; exact Hcrawl].
  assert (Hfilter : filter truthy definitions = definitions).
  { clear. induction definitions as [|d ds IH]; simpl; [reflexivity | now rewrite IH]. }
  rewrite Hfilter.
  match goal with
  | |- context [promiseAll (materialize ?i) (inr ?f :: map inr ?ds)] =>
      change (promiseAll (materialize i) (inr f :: map inr ds))
        with (promiseAll (materialize i) (map inr (f :: ds)))
  end.
  rewrite promiseAll_materialized. simpl.
  now rewrite <- !app_assoc.
Qed.

(** Witness for X10: [new (makeWidgetClass())], crawled without the
    language. *)
Lemma getDefinitionsForNode_unnamed_new_expression_witness :
  getDefinitionsForNode env "anonymous.ts" newAnonymous (Some ide) None start
  = (Returned [withContents widgetDef (Js.trim widgetText); colorDef],
     mkRun 3 []
       ([] ++ [CallExecuteGotoProvider
                 (GotoInput.mk "anonymous.ts" 0 23 executeDefinitionProvider);
               CallReadRangeInFile "widget.ts" (RangeInFile.range widgetDef)
                 (Returned widgetText);
               CallCrawlTypes (withContents widgetDef widgetText)])).
Proof.
  apply (getDefinitionsForNode_unnamed_new_expression nat env "anonymous.ts"
           newAnonymous ide None start
           (GotoInput.mk "anonymous.ts" 0 23 executeDefinitionProvider)
           widgetDef [] 1 2 3 widgetText [colorDef]);
    first [reflexivity | exact I].
Defined.

(** X11 (a named new-expression without the language): when the
    new-expression has an identifier child with a text, the definition
    resolves and is read, and no language was passed, the strategy throws
    a [TypeError] when it builds the comment: after the read and before
    the type crawler is called. *)
Theorem getDefinitionsForNode_missing_language :
  forall (W : Type) (env : Collaborators W) (uri : string) (node : SyntaxNode)
         (ide : IDE W) (r : Run W) (classNameNode : SyntaxNode)
         (query : GotoInput.t) (classDef : RangeInFile.t) (more : list RangeInFile.t)
         (w1 w2 : W) (contents : string),
    Node.type node = "new_expression" ->
    find (fun child => String.eqb (Node.type child) "identifier") (Node.children node)
    = Some classNameNode ->
    Node.text classNameNode <> EmptyString ->
    gotoQueryFor uri node = Some query ->
    executeGotoProvider env query (world r) = (Returned (classDef :: more), w1) ->
    readRangeInFile ide (RangeInFile.filepath classDef) (RangeInFile.range classDef) w1
    = (Returned contents, w2) ->
    getDefinitionsForNode env uri node (Some ide) None r
    = (Thrown missingLang,
       mkRun w2 (console r)
             (calls r ++ [CallExecuteGotoProvider query;
                          CallReadRangeInFile (RangeInFile.filepath classDef)
                            (RangeInFile.range classDef) (Returned contents)])).
Proof.
  intros W env uri node ide r classNameNode query classDef more w1 w2 contents
         Htype Hfind Hname Hq Hgoto Hread.
  apply gotoQueryFor_cases in Hq.
  destruct Hq as [[Hcall _] | [_ ->]]; [rewrite Hcall in Htype; discriminate|].
  unfold getDefinitionsForNode. rewrite Htype. decide_cases.
  erewrite bind_returned; [| apply await_run; exact Hgoto].
  unfold member at 1. unfold bind at 1. unfold ret at 1.
  erewrite bind_returned; [| apply await_run; simpl; exact Hread].
  rewrite Hfind. apply String.eqb_neq in Hname. rewrite Hname.
  unfold member, bind, throw. simpl. now rewrite <- app_assoc.
Qed.

(** Witness for X11: [new Widget()] crawled without the language. *)
Lemma getDefinitionsForNode_missing_language_witness :
  "Widget" <> EmptyString
  /\ getDefinitionsForNode env "new.ts" newWidget (Some ide) None start
     = (Thrown missingLang,
        mkRun 2 []
          ([] ++ [CallExecuteGotoProvider
                    (GotoInput.mk "new.ts" 0 10 executeDefinitionProvider);
                  CallReadRangeInFile "widget.ts" (RangeInFile.range widgetDef)
                    (Returned widgetText)])).
Proof.
  assert (Hname : "Widget" <> EmptyString) by discriminate.
  split; [exact Hname|].
  apply (getDefinitionsForNode_missing_language nat env "new.ts" newWidget ide start
           (leaf "identifier" 0 4 0 10 4 "Widget")
           (GotoInput.mk "new.ts" 0 10 executeDefinitionProvider)
           widgetDef [] 1 2 widgetText);
    try reflexivity.
  exact Hname.
Defined.

(** X12 (a resolved node without the ide): when no ide was passed and the
    node's query resolves to a location, the strategy throws a
    [TypeError] right after the query; nothing has been read. *)
Theorem getDefinitionsForNode_missing_ide :
  forall (W : Type) (env : Collaborators W) (uri : string) (node : SyntaxNode)
         (lang : option AutocompleteLanguageInfo.t) (r : Run W)
         (query : GotoInput.t) (def : RangeInFile.t) (more : list RangeInFile.t)
         (w1 : W),
    gotoQueryFor uri node = Some query ->
    executeGotoProvider env query (world r) = (Returned (def :: more), w1) ->
    getDefinitionsForNode env uri node None lang r
    = (Thrown missingIde,
       mkRun w1 (console r) (calls r ++ [CallExecuteGotoProvider query])).
Proof.
  intros W env uri node lang r query def more w1. apply missing_ide_run.
Qed.

(** Witness for X12: [foo(1, 2)] crawled without the ide. *)
Lemma getDefinitionsForNode_missing_ide_witness :
  getDefinitionsForNode env "main.ts" fooCall None (Some typescript) start
  = (Thrown missingIde,
     mkRun 1 [] ([] ++ [CallExecuteGotoProvider
                          (GotoInput.mk "main.ts" 0 0 executeDefinitionProvider)])).
Proof.
  apply (getDefinitionsForNode_missing_ide nat env "main.ts" fooCall (Some typescript)
           start (GotoInput.mk "main.ts" 0 0 executeDefinitionProvider) fooDef [] 1);
    reflexivity.
Defined.

Section EntryPointFacts.

Context {W : Type} (env : Collaborators W).

Lemma resolver_fails_run uri node ide lang (r : Run W) query e w :
  gotoQueryFor uri node = Some query ->
  executeGotoProvider env query (world r) = (Thrown e, w) ->
  getDefinitionsForNode env uri node ide lang r
  = (Thrown e, mkRun w (console r) (calls r ++ [CallExecuteGotoProvider query])).
Proof.
  intros Hq Hgoto. apply gotoQueryFor_cases in Hq.
  destruct Hq as [[Htype ->] | [Htype ->]];
    unfold getDefinitionsForNode; rewrite Htype; decide_cases;
    (eapply eq_trans;
     [apply bind_thrown; apply await_run; exact Hgoto | reflexivity]).
Qed.

Lemma forEachNode_walkFrom filepath (ide : IDE W) nodes :
  forall results (r : Run W),
    forEachNode env filepath ide nodes results r
    = match walkFrom env filepath nodes (world r) with
      | (queries, stop, w) =>
          (match stop with Some e => Thrown e | None => Returned results end,
           mkRun w (console r) (calls r ++ map CallExecuteGotoProvider queries))
      end.
Proof.
  induction nodes as [|node rest IH]; intros results r.
  - simpl. rewrite app_nil_r. destruct r; reflexivity.
  - simpl walkFrom. destruct (gotoQueryFor filepath node) as [query|] eqn:Hq.
    + destruct (executeGotoProvider env query (world r)) as [[[|def more]|e] w] eqn:Hgoto.
      * rewrite (forEachNode_skip env filepath ide node rest results r _
                   (miss_run env filepath node None None r query w Hq Hgoto)).
        rewrite IH. simpl.
        destruct (walkFrom env filepath rest w) as [[queries stop] w''].
        simpl. now rewrite <- app_assoc.
      * now rewrite (forEachNode_stop env filepath ide node rest results r _ _
                       (missing_ide_run env filepath node None r query def more w
                          Hq Hgoto)).
      * now rewrite (forEachNode_stop env filepath ide node rest results r _ _
                       (resolver_fails_run filepath node None None r query e w
                          Hq Hgoto)).
    + apply gotoQueryFor_none in Hq. destruct Hq as [Hc Hn].
      rewrite (forEachNode_skip env filepath ide node rest results r r
                 (other_node_run env filepath node None None r Hc Hn)).
      apply IH.
Qed.

Lemma walkFrom_prefix uri nodes :
  forall w : W,
    match walkFrom env uri nodes w with
    | (queries, stop, _) =>
        (exists outer, queriesOf uri nodes = queries ++ outer)
        /\ (stop = None -> queries = queriesOf uri nodes)
    end.
Proof.
  unfold queriesOf.
  induction nodes as [|node rest IH]; intros w; simpl.
  - split; [now exists [] | reflexivity].
  - destruct (gotoQueryFor uri node) as [query|]; [|apply IH].
    destruct (executeGotoProvider env query w) as [[[|def more]|e] w'].
    + specialize (IH w').
      destruct (walkFrom env uri rest w') as [[queries stop] w''].
      destruct IH as [[outer Houter] Hall]. simpl. split.
      * exists outer. now rewrite Houter.
      * intros Hstop. now rewrite (Hall Hstop).
    + split; [eexists; reflexivity | discriminate].
    + split; [eexists; reflexivity | discriminate].
Qed.

End EntryPointFacts.

(** X13 (the walk of the entry point): with a tree and a path for the
    cursor, whatever the resolver does, the entry point walks the path
    from the innermost node outwards and sends the query of each handled
    node, each to the resolver as the earlier queries left it, up to and
    including the first query that resolves or fails.  There it stops
    with exactly one warning: the [TypeError] of the missing ide when the
    query resolved, the resolver's error when it failed.  The nodes
    further out are never asked for; when no query resolves or fails,
    every handled node is asked for and nothing is logged.  The result is
    the empty sequence. *)
Theorem getDefinitionsFromLsp_walk :
  forall (W : Type) (env : Collaborators W) (filepath contents : string)
         (cursorIndex : nat) (ide : IDE W) (r : Run W)
         (ast : Tree.t) (treePath : list SyntaxNode) (w1 w2 : W),
    getAst env filepath contents (world r) = (Returned (Some ast), w1) ->
    getTreePathAtCursor env ast cursorIndex w1 = (Returned (Some treePath), w2) ->
    match walkFrom env filepath (rev treePath) w2 with
    | (queries, stop, w) =>
        getDefinitionsFromLsp env filepath contents cursorIndex ide r
        = (Returned [],
           mkRun w
                 (console r ++ match stop with
                               | Some e => [(warning, e)]
                               | None => []
                               end)
                 (calls r ++ CallGetAst filepath contents
                          :: CallGetTreePathAtCursor cursorIndex
                          :: map CallExecuteGotoProvider queries))
        /\ (exists outer, queriesOf filepath (rev treePath) = queries ++ outer)
        /\ (stop = None -> queries = queriesOf filepath (rev treePath))
    end.
Proof.
  intros W env filepath contents cursorIndex ide r ast treePath w1 w2 Hast Hpath.
  pose proof (walkFrom_prefix env filepath (rev treePath) w2) as Hprefix.
  pose proof (forEachNode_walkFrom env filepath ide (rev treePath) []
                (mkRun w2 (console r)
                   ((calls r ++ [CallGetAst filepath contents])
                      ++ [CallGetTreePathAtCursor cursorIndex]))) as Hloop.
  simpl world in Hloop.
  destruct (walkFrom env filepath (rev treePath) w2) as [[queries stop] w].
  split; [|exact Hprefix].
  rewrite getDefinitionsFromLsp_unfold. unfold tryCatch.
  rewrite getDefinitionsFromLsp_try_unfold.
  erewrite bind_returned; [| apply await_run; exact Hast]. cbv beta iota.
  erewrite bind_returned; [| apply await_run; simpl; exact Hpath]. cbv beta iota.
  cbn [console calls world]. unfold bind at 1. rewrite Hloop.
  destruct stop as [e|]; simpl.
  - now rewrite <- !app_assoc.
  - now rewrite <- !app_assoc, app_nil_r.
Qed.

(** Witness for X13: the cursor inside the inner call of [foo(foo(1))]:
    the identifier and the argument list send nothing, the inner call is
    asked for and resolves, the outer call is never asked for. *)
Lemma getDefinitionsFromLsp_walk_witness :
  getDefinitionsFromLsp env "main.ts" mainText 36 ide start
  = (Returned [],
     mkRun 3 ([] ++ [(warning, missingIde)])
       ([] ++ [CallGetAst "main.ts" mainText; CallGetTreePathAtCursor 36;
               CallExecuteGotoProvider
                 (GotoInput.mk "main.ts" 4 4 executeDefinitionProvider)]))
  /\ (exists outer,
        [GotoInput.mk "main.ts" 4 4 executeDefinitionProvider;
         GotoInput.mk "main.ts" 4 0 executeDefinitionProvider]
        = [GotoInput.mk "main.ts" 4 4 executeDefinitionProvider] ++ outer)
  /\ (Some missingIde = None ->
      [GotoInput.mk "main.ts" 4 4 executeDefinitionProvider]
      = [GotoInput.mk "main.ts" 4 4 executeDefinitionProvider;
         GotoInput.mk "main.ts" 4 0 executeDefinitionProvider]).
Proof.
  exact (getDefinitionsFromLsp_walk nat env "main.ts" mainText 36 ide start
           mainTree
           [Tree.rootNode mainTree; outerFooCall;
            mkSyntaxNode "arguments" (Point.mk 4 3) (Point.mk 4 11) 33 "(foo(1))"
              [leaf "(" 4 3 4 4 33 "("; innerFooCall; leaf ")" 4 10 4 11 40 ")"];
            innerFooCall; leaf "identifier" 4 4 4 7 34 "foo"]
           1 2 eq_refl eq_refl).
Defined.

Section NeverReads.

Context {W : Type} (env : Collaborators W).

Lemma node_without_ide_calls uri node lang (r : Run W) :
  exists new,
    calls (snd (getDefinitionsForNode env uri node None lang r)) = calls r ++ new
    /\ existsb isReadOrCrawl new = false
    /\ (fst (getDefinitionsForNode env uri node None lang r) = Returned []
        \/ exists e, fst (getDefinitionsForNode env uri node None lang r) = Thrown e).
Proof.
  destruct (gotoQueryFor uri node) as [query|] eqn:Hq.
  - destruct (executeGotoProvider env query (world r)) as [[[|def more]|e] w] eqn:Hgoto.
    + rewrite (miss_run env uri node None lang r query w Hq Hgoto).
      eexists [_]. repeat split. now left.
    + rewrite (missing_ide_run env uri node lang r query def more w Hq Hgoto).
      eexists [_]. repeat split. right. now eexists.
    + rewrite (resolver_fails_run env uri node None lang r query e w Hq Hgoto).
      eexists [_]. repeat split. right. now eexists.
  - apply gotoQueryFor_none in Hq. destruct Hq as [Hc Hn].
    rewrite (other_node_run env uri node None lang r Hc Hn).
    exists []. simpl. rewrite app_nil_r. repeat split. now left.
Qed.

Lemma forEachNode_never_reads filepath (ide : IDE W) nodes :
  forall results (r : Run W),
  exists new,
    calls (snd (forEachNode env filepath ide nodes results r)) = calls r ++ new
    /\ existsb isReadOrCrawl new = false.
Proof.
  induction nodes as [|node rest IH]; intros results r.
  - exists []. simpl. rewrite app_nil_r. split; reflexivity.
  - destruct (node_without_ide_calls filepath node None r)
      as [new [Hcalls [Hclean [Hnil | [e He]]]]].
    + destruct (getDefinitionsForNode env filepath node None None r)
        as [outcome r1] eqn:Hrun. simpl in Hcalls, Hnil. subst outcome.
      rewrite (forEachNode_skip env filepath ide node rest results r r1 Hrun).
      destruct (IH results r1) as [new' [Hcalls' Hclean']].
      exists (new ++ new'). rewrite Hcalls', Hcalls, <- app_assoc.
      split; [reflexivity|]. rewrite existsb_app, Hclean, Hclean'. reflexivity.
    + destruct (getDefinitionsForNode env filepath node None None r)
        as [outcome r1] eqn:Hrun. simpl in Hcalls, He. subst outcome.
      rewrite (forEachNode_stop env filepath ide node rest results r r1 e Hrun).
      exists new. split; assumption.
Qed.

End NeverReads.

(** X14 (what the entry point never does): on every input the entry
    point returns the empty sequence, and among the calls it makes there
    is no read of a file and no call of the type crawler. *)
Theorem getDefinitionsFromLsp_never_reads :
  forall (W : Type) (env : Collaborators W) (filepath contents : string)
         (cursorIndex : nat) (ide : IDE W) (r : Run W),
    fst (getDefinitionsFromLsp env filepath contents cursorIndex ide r) = Returned []
    /\ exists new,
        calls (snd (getDefinitionsFromLsp env filepath contents cursorIndex ide r))
        = calls r ++ new
        /\ existsb isReadOrCrawl new = false.
Proof.
  intros W env filepath contents cursorIndex ide r.
  split; [apply getDefinitionsFromLsp_finds_nothing|].
  rewrite getDefinitionsFromLsp_unfold. unfold tryCatch.
  rewrite getDefinitionsFromLsp_try_unfold. unfold bind.
  unfold awaitGetAst, awaitGetTreePathAtCursor, await.
  destruct (getAst env filepath contents (world r)) as [[[ast|]|e] w1]; simpl;
    try (eexists [_]; split; reflexivity).
  destruct (getTreePathAtCursor env ast cursorIndex w1) as [[[treePath|]|e] w2]; simpl;
    try (eexists [_; _]; rewrite <- app_assoc; split; reflexivity).
  match goal with |- context [forEachNode env filepath ide ?ns ?rs ?r0] =>
    destruct (forEachNode_never_reads env filepath ide ns rs r0)
      as [new [Hcalls Hclean]];
    destruct (forEachNode env filepath ide ns rs r0) as [[results|e] r3] end;
    simpl in Hcalls |- *; rewrite Hcalls, <- !app_assoc; simpl;
    eexists (_ :: _ :: new); (split; [reflexivity | exact Hclean]).
Qed.

(** X15 (the final map of the strategy): when the final map succeeds it
    returns one result per element of [ranges], in the same order and
    for the same filepath and range; an element that came with contents
    is returned as it is and costs no call; each bare location costs
    exactly one read, and the reads are made in the order of the list. *)
Theorem materialize_all :
  forall (W : Type) (ide : IDE W)
         (ranges : list (RangeInFile.t + RangeInFileWithContents.t))
         (r r' : Run W) (out : list RangeInFileWithContents.t),
    promiseAll (materialize (Some ide)) ranges r = (Returned out, r') ->
    map locationOf out
    = map (fun rif => (RangeInFile.filepath (asRangeInFile rif),
                       RangeInFile.range (asRangeInFile rif))) ranges
    /\ Forall2 (fun rif s => match rif with inr rifc => s = rifc | inl _ => True end)
               ranges out
    /\ calls r' = calls r ++ readsFor ranges out
    /\ console r' = console r.
Proof.
  intros W ide ranges. induction ranges as [|rif rest IH]; intros r r' out H.
  - inversion H; subst. simpl. rewrite app_nil_r. repeat split. constructor.
  - apply promiseAll_cons_inv in H. destruct H as [s [r1 [ss [Hs [Hss ->]]]]].
    destruct (IH _ _ _ Hss) as [Hloc [Hsame [Hcalls Hconsole]]].
    destruct rif as [bare|rifc].
    + unfold materialize, member in Hs. simpl in Hs.
      unfold bind at 1 in Hs. unfold ret at 1 in Hs.
      apply bind_inv in Hs. destruct Hs as [text [r0 [Hread Hs]]].
      inversion Hs; subst; clear Hs.
      apply await_inv in Hread. destruct Hread as [w [_ Hr1]]. subst r1.
      simpl in Hcalls, Hconsole. simpl.
      rewrite Hloc, Hcalls, Hconsole, <- app_assoc.
      repeat split. constructor; [exact I | exact Hsame].
    + inversion Hs; subst; clear Hs. simpl.
      rewrite Hloc, Hcalls, Hconsole.
      repeat split. constructor; [reflexivity | exact Hsame].
Qed.

(** Witness for X15: a bare location followed by a result with contents. *)
Lemma materialize_all_witness :
  map locationOf [withContents fooDef fooText; colorDef]
  = [("lib.ts", RangeInFile.range fooDef);
     ("color.ts", RangeInFileWithContents.range colorDef)]
  /\ Forall2 (fun rif s => match rif with inr rifc => s = rifc | inl _ => True end)
             [inl fooDef; inr colorDef] [withContents fooDef fooText; colorDef]
  /\ calls (mkRun 1 [] [CallReadRangeInFile "lib.ts" (RangeInFile.range fooDef)
                          (Returned fooText)])
     = [] ++ [CallReadRangeInFile "lib.ts" (RangeInFile.range fooDef)
                (Returned fooText)]
  /\ console (mkRun 1 [] [CallReadRangeInFile "lib.ts" (RangeInFile.range fooDef)
                            (Returned fooText)]) = [].
Proof.
  apply (materialize_all nat ide [inl fooDef; inr colorDef] start
           (mkRun 1 [] [CallReadRangeInFile "lib.ts" (RangeInFile.range fooDef)
                          (Returned fooText)])
           [withContents fooDef fooText; colorDef]).
  reflexivity.
Defined.

(** X16 (the re-read of the aggregator): when the re-read of a list of
    definitions succeeds it returns one result per definition, in the
    same order and for the same filepath and range, whose contents are
    what the reads returned; it makes exactly one read per definition, in
    order, and logs nothing. *)
Theorem reread_all :
  forall (W : Type) (ide : IDE W) (defs : list RangeInFileWithContents.t)
         (r r' : Run W) (fresh : list RangeInFileWithContents.t),
    promiseAll (reread ide) defs r = (Returned fresh, r') ->
    map locationOf fresh = map locationOf defs
    /\ calls r' = calls r ++ map readOf fresh
    /\ console r' = console r.
Proof.
  intros W ide defs. induction defs as [|def rest IH]; intros r r' fresh H.
  - inversion H; subst. simpl. rewrite app_nil_r. repeat split.
  - apply promiseAll_cons_inv in H. destruct H as [s [r1 [ss [Hs [Hss ->]]]]].
    destruct (IH _ _ _ Hss) as [Hloc [Hcalls Hconsole]].
    pose proof (reread_run ide def r) as Hrun. simpl in Hrun.
    destruct (readRangeInFile ide _ _ (world r)) as [[text|e] w];
      rewrite Hrun in Hs; inversion Hs; subst; clear Hs.
    simpl in Hcalls, Hconsole. simpl.
    rewrite Hcalls, Hconsole, <- app_assoc. unfold locationOf at 1 3. simpl.
    rewrite Hloc. repeat split.
Qed.

(** Witness for X16: the definition of [foo], come with stale contents,
    is read again. *)
Lemma reread_all_witness :
  map locationOf [withContents fooDef fooText]
  = map locationOf [withContents fooDef "stale"]
  /\ calls (mkRun 1 [] [readOf (withContents fooDef fooText)])
     = [] ++ map readOf [withContents fooDef fooText]
  /\ console (mkRun 1 [] [readOf (withContents fooDef fooText)]) = [].
Proof.
  apply (reread_all nat ide [withContents fooDef "stale"] start
           (mkRun 1 [] [readOf (withContents fooDef fooText)])
           [withContents fooDef fooText]).
  reflexivity.
Defined.

(** ** The aggregator, for any way of calling the strategy

    [getDefinitionsFromLsp] is [getDefinitionsFromLspWith] at
    [strategyAsCalled], the call of line 165.  What the lines 156-195 do
    with the definitions a strategy returns is stated for every
    strategy. *)

Section AnyStrategy.

Context {W : Type} (env : Collaborators W).
Variable strategy : string -> SyntaxNode -> M W (list RangeInFileWithContents.t).

Lemma scoreResults_scored (results : list RangeInFileWithContents.t) :
  Forall scoredAndNonEmpty (scoreResults results).
Proof.
  apply Forall_forall. intros s Hin. apply in_map_iff in Hin.
  destruct Hin as [result [<- _]]. split; [reflexivity | apply lines_length_pos].
Qed.

Lemma scoreResults_unscored (results : list RangeInFileWithContents.t) :
  map unscored (scoreResults results) = results.
Proof.
  unfold scoreResults. rewrite map_map.
  induction results as [|[filepath range contents] rest IH]; simpl;
    [reflexivity | now rewrite IH].
Qed.

Lemma tryWith_run filepath contents cursorIndex ide (r : Run W) ast treePath w1 w2 :
  getAst env filepath contents (world r) = (Returned (Some ast), w1) ->
  getTreePathAtCursor env ast cursorIndex w1 = (Returned (Some treePath), w2) ->
  getDefinitionsFromLsp_tryWith env strategy filepath contents cursorIndex ide r
  = bind (forEachNodeWith strategy filepath ide (rev treePath) [])
         (fun results => ret (scoreResults results))
         (mkRun w2 (console r)
                (calls r ++ [CallGetAst filepath contents;
                             CallGetTreePathAtCursor cursorIndex])).
Proof.
  intros Hast Hpath. unfold getDefinitionsFromLsp_tryWith.
  erewrite bind_returned; [| apply await_run; exact Hast]. cbv beta iota.
  erewrite bind_returned; [| apply await_run; simpl; exact Hpath]. cbv beta iota.
  cbn [console calls world]. now rewrite <- app_assoc.
Qed.

Lemma tryWith_scored filepath contents cursorIndex ide (r r' : Run W) snippets :
  getDefinitionsFromLsp_tryWith env strategy filepath contents cursorIndex ide r
  = (Returned snippets, r') ->
  Forall scoredAndNonEmpty snippets.
Proof.
  unfold getDefinitionsFromLsp_tryWith, bind.
  destruct (awaitGetAst env filepath contents r) as [[[ast|]|e] r2];
    try discriminate; [|intros H; inversion H; constructor].
  destruct (awaitGetTreePathAtCursor env ast cursorIndex r2) as [[[treePath|]|e] r3];
    try discriminate; [|intros H; inversion H; constructor].
  destruct (forEachNodeWith strategy filepath ide (rev treePath) [] r3)
    as [[results|e] r4]; try discriminate.
  intros H; inversion H; subst. apply scoreResults_scored.
Qed.

Lemma promiseAll_reread_returns (ide : IDE W)
      (defs : list RangeInFileWithContents.t) :
  forall (r r' : Run W) fresh,
    promiseAll (reread ide) defs r = (Returned fresh, r') ->
    map locationOf fresh = map locationOf defs
    /\ calls r' = calls r ++ map readOf fresh.
Proof.
  induction defs as [|def rest IH]; intros r r' fresh H.
  - inversion H; subst. simpl. rewrite app_nil_r. split; reflexivity.
  - apply promiseAll_cons_inv in H. destruct H as [s [r1 [ss [Hs [Hss ->]]]]].
    destruct (IH _ _ _ Hss) as [Hloc Hcalls].
    pose proof (reread_run ide def r) as Hrun. simpl in Hrun.
    destruct (readRangeInFile ide _ _ (world r)) as [[text|e] w];
      rewrite Hrun in Hs; inversion Hs; subst; clear Hs.
    simpl in Hcalls. simpl. rewrite Hcalls, <- app_assoc.
    unfold locationOf at 1 3. simpl. now rewrite Hloc.
Qed.

Lemma promiseAll_reread_blank (ide : IDE W)
      (defs : list RangeInFileWithContents.t) :
  forall r : Run W,
    promiseAll (reread ide) (map blank defs) r = promiseAll (reread ide) defs r.
Proof.
  induction defs as [|def rest IH]; intros r; [reflexivity|].
  simpl. change (reread ide (blank def) r) with (reread ide def r).
  destruct (reread ide def r) as [[s|e] r1].
  - unfold bind. now rewrite IH.
  - now rewrite IH.
Qed.

Lemma forEachNodeWith_erase filepath (ide : IDE W) nodes :
  forall results (r : Run W),
    forEachNodeWith (eraseContents strategy) filepath ide nodes results r
    = forEachNodeWith strategy filepath ide nodes results r.
Proof.
  induction nodes as [|node rest IH]; intros results r; [reflexivity|].
  simpl. unfold bind at 1 3. unfold eraseContents.
  destruct (strategy filepath node r) as [[definitions|e] r1]; [|reflexivity].
  unfold bind. rewrite promiseAll_reread_blank.
  destruct (promiseAll (reread ide) definitions r1) as [[fresh|e] r2];
    [apply IH | reflexivity].
Qed.

Lemma forEachNodeWith_aggregated filepath (ide : IDE W) nodes :
  forall results (r r' : Run W) out,
    forEachNodeWith strategy filepath ide nodes results r = (Returned out, r') ->
    exists added,
      out = results ++ added /\ Aggregated strategy filepath nodes r added r'.
Proof.
  induction nodes as [|node rest IH]; intros results r r' out H; simpl in H.
  - inversion H; subst. exists []. rewrite app_nil_r. split; [reflexivity | constructor].
  - apply bind_inv in H. destruct H as [definitions [r1 [Hdefs H]]].
    apply bind_inv in H. destruct H as [fresh [r2 [Hfresh H]]].
    destruct (IH _ _ _ _ H) as [more [Hout Hmore]].
    destruct (promiseAll_reread_returns ide definitions _ _ _ Hfresh) as [Hloc Hcalls].
    exists (fresh ++ more). split; [now rewrite Hout, app_assoc|].
    eapply Aggregated_node; eassumption.
Qed.

End AnyStrategy.

(** C9 (score and contents): the entry point returns on every input, and
    every snippet it returns has the score 0.8 and contents of at least
    one line; lines 156-195 ensure this however the strategy is called.
    When the loop over the path returns its results, the sequence
    returned is these results, one snippet for each and in their order,
    each with its filepath, range and contents and with the score
    0.8. *)
Theorem getDefinitionsFromLsp_scores :
  forall (W : Type) (env : Collaborators W)
         (strategy : string -> SyntaxNode -> M W (list RangeInFileWithContents.t))
         (filepath contents : string) (cursorIndex : nat) (ide : IDE W) (r : Run W),
    (exists snippets r',
        getDefinitionsFromLsp env filepath contents cursorIndex ide r
        = (Returned snippets, r')
        /\ Forall scoredAndNonEmpty snippets)
    /\ (exists snippets r',
           getDefinitionsFromLspWith env strategy filepath contents cursorIndex ide r
           = (Returned snippets, r')
           /\ Forall scoredAndNonEmpty snippets)
    /\ (forall ast treePath w1 w2 results r3,
           getAst env filepath contents (world r) = (Returned (Some ast), w1) ->
           getTreePathAtCursor env ast cursorIndex w1 = (Returned (Some treePath), w2) ->
           forEachNodeWith strategy filepath ide (rev treePath) []
             (mkRun w2 (console r)
                    (calls r ++ [CallGetAst filepath contents;
                                 CallGetTreePathAtCursor cursorIndex]))
           = (Returned results, r3) ->
           getDefinitionsFromLspWith env strategy filepath contents cursorIndex ide r
           = (Returned (scoreResults results), r3)
           /\ map unscored (scoreResults results) = results
           /\ Forall scoredAndNonEmpty (scoreResults results)).
Proof.
  intros W env strategy filepath contents cursorIndex ide r.
  assert (Hany : forall strategy',
             exists snippets r',
               getDefinitionsFromLspWith env strategy' filepath contents cursorIndex ide r
               = (Returned snippets, r')
               /\ Forall scoredAndNonEmpty snippets).
  { intros strategy'. unfold getDefinitionsFromLspWith, tryCatch.
    destruct (getDefinitionsFromLsp_tryWith env strategy' filepath contents
                cursorIndex ide r) as [[snippets|e] r1] eqn:Hbody.
    - exists snippets, r1. split; [reflexivity|]. eapply tryWith_scored; eassumption.
    - eexists [], _. split; [reflexivity | constructor]. }
  split; [apply (Hany (strategyAsCalled env))|]. split; [apply Hany|].
  intros ast treePath w1 w2 results r3 Hast Hpath Hloop.
  split; [|split; [apply scoreResults_unscored | apply scoreResults_scored]].
  unfold getDefinitionsFromLspWith, tryCatch.
  rewrite (tryWith_run env strategy filepath contents cursorIndex ide r
             ast treePath w1 w2 Hast Hpath).
  unfold bind. rewrite Hloop. reflexivity.
Qed.

(** Witness for C9: the cursor on [foo(1, 2)], the strategy called with
    all four arguments: one snippet, for the definition of [foo], with
    the score 0.8. *)
Lemma getDefinitionsFromLsp_scores_witness :
  getDefinitionsFromLspWith env strategyGivenAll "main.ts" mainText 2 ide start
  = (Returned (scoreResults [withContents fooDef fooText]),
     mkRun 7 []
       [CallGetAst "main.ts" mainText; CallGetTreePathAtCursor 2;
        CallExecuteGotoProvider (GotoInput.mk "main.ts" 0 0 executeDefinitionProvider);
        readOf (withContents fooDef fooText);
        CallCrawlTypes (withContents fooDef fooText);
        readOf (withContents fooDef fooText);
        readOf (withContents fooDef fooText)])
  /\ map unscored (scoreResults [withContents fooDef fooText])
     = [withContents fooDef fooText]
  /\ Forall scoredAndNonEmpty (scoreResults [withContents fooDef fooText]).
Proof.
  exact (proj2 (proj2 (getDefinitionsFromLsp_scores nat env strategyGivenAll
                         "main.ts" mainText 2 ide start))
           mainTree [Tree.rootNode mainTree; fooCall; leaf "identifier" 0 0 0 3 0 "foo"]
           1 2 [withContents fooDef fooText]
           (mkRun 7 []
              [CallGetAst "main.ts" mainText; CallGetTreePathAtCursor 2;
               CallExecuteGotoProvider
                 (GotoInput.mk "main.ts" 0 0 executeDefinitionProvider);
               readOf (withContents fooDef fooText);
               CallCrawlTypes (withContents fooDef fooText);
               readOf (withContents fooDef fooText);
               readOf (withContents fooDef fooText)])
           eq_refl eq_refl eq_refl).
Defined.

(** C10 (the final read decides the contents): the entry point is lines
    156-195 with the strategy called as on line 165.  However the
    strategy is called, the contents it produced never reach the result:
    the run is the same when they are all wiped out.  And when the body
    of the [try] returns, the sequence returned is accounted for node by
    node, in the order of the walk: its snippets have the filepaths and
    ranges of the definitions the strategy returned, in their order and
    unchanged, and after the strategy returned for a node the aggregator
    made one read per definition, of the definition's own range, whose
    outcome is the contents of the snippet.  On every input the call
    returns a sequence that is empty or accounted for in this way. *)
Theorem getDefinitionsFromLsp_final_read :
  forall (W : Type) (env : Collaborators W)
         (strategy : string -> SyntaxNode -> M W (list RangeInFileWithContents.t))
         (filepath contents : string) (cursorIndex : nat) (ide : IDE W) (r : Run W),
    getDefinitionsFromLsp env filepath contents cursorIndex ide r
    = getDefinitionsFromLspWith env (strategyAsCalled env) filepath contents
        cursorIndex ide r
    /\ getDefinitionsFromLspWith env (eraseContents strategy) filepath contents
         cursorIndex ide r
       = getDefinitionsFromLspWith env strategy filepath contents cursorIndex ide r
    /\ (forall ast treePath w1 w2 snippets r',
           getAst env filepath contents (world r) = (Returned (Some ast), w1) ->
           getTreePathAtCursor env ast cursorIndex w1 = (Returned (Some treePath), w2) ->
           getDefinitionsFromLsp_tryWith env strategy filepath contents cursorIndex ide r
           = (Returned snippets, r') ->
           getDefinitionsFromLspWith env strategy filepath contents cursorIndex ide r
           = (Returned snippets, r')
           /\ Aggregated strategy filepath (rev treePath)
                (mkRun w2 (console r)
                       (calls r ++ [CallGetAst filepath contents;
                                    CallGetTreePathAtCursor cursorIndex]))
                (map unscored snippets) r')
    /\ (exists snippets r',
           getDefinitionsFromLspWith env strategy filepath contents cursorIndex ide r
           = (Returned snippets, r')
           /\ (snippets = []
               \/ exists ast treePath w1 w2,
                   getAst env filepath contents (world r) = (Returned (Some ast), w1)
                   /\ getTreePathAtCursor env ast cursorIndex w1
                      = (Returned (Some treePath), w2)
                   /\ Aggregated strategy filepath (rev treePath)
                        (mkRun w2 (console r)
                               (calls r ++ [CallGetAst filepath contents;
                                            CallGetTreePathAtCursor cursorIndex]))
                        (map unscored snippets) r')).
Proof.
  intros W env strategy filepath contents cursorIndex ide r.
  split; [reflexivity|]. split; [|split].
  - unfold getDefinitionsFromLspWith, tryCatch, getDefinitionsFromLsp_tryWith, bind.
    destruct (awaitGetAst env filepath contents r) as [[[ast|]|e] r1]; try reflexivity.
    destruct (awaitGetTreePathAtCursor env ast cursorIndex r1) as [[[treePath|]|e] r2];
      try reflexivity.
    now rewrite forEachNodeWith_erase.
  - intros ast treePath w1 w2 snippets r' Hast Hpath Hbody.
    split; [unfold getDefinitionsFromLspWith, tryCatch; now rewrite Hbody|].
    rewrite (tryWith_run env strategy filepath contents cursorIndex ide r
               ast treePath w1 w2 Hast Hpath) in Hbody.
    apply bind_inv in Hbody. destruct Hbody as [results [r3 [Hloop Hret]]].
    inversion Hret; subst; clear Hret.
    rewrite scoreResults_unscored.
    destruct (forEachNodeWith_aggregated strategy filepath ide (rev treePath)
                [] _ _ _ Hloop) as [added [Hout Hagg]].
    simpl in Hout. subst added. exact Hagg.
  - destruct (getAst env filepath contents (world r)) as [[[ast|]|e] w1] eqn:Hast;
      [| eexists [], _; split; [|left; reflexivity];
         unfold getDefinitionsFromLspWith, tryCatch, getDefinitionsFromLsp_tryWith,
           bind, awaitGetAst, await; rewrite Hast; reflexivity ..].
    destruct (getTreePathAtCursor env ast cursorIndex w1) as [[[treePath|]|e] w2]
      eqn:Hpath;
      [| eexists [], _; split; [|left; reflexivity];
         unfold getDefinitionsFromLspWith, tryCatch, getDefinitionsFromLsp_tryWith,
           bind, awaitGetAst, awaitGetTreePathAtCursor, await;
         rewrite Hast; cbn [world]; rewrite Hpath; reflexivity ..].
    unfold getDefinitionsFromLspWith, tryCatch.
    rewrite (tryWith_run env strategy filepath contents cursorIndex ide r
               ast treePath w1 w2 Hast Hpath).
    unfold bind.
    destruct (forEachNodeWith strategy filepath ide (rev treePath) [] _)
      as [[results|e] r3] eqn:Hloop.
    + exists (scoreResults results), r3. split; [reflexivity|]. right.
      exists ast, treePath, w1, w2. split; [reflexivity|]. split; [exact Hpath|].
      rewrite scoreResults_unscored.
      destruct (forEachNodeWith_aggregated strategy filepath ide (rev treePath)
                  [] _ _ _ Hloop) as [added [Hout Hagg]].
      simpl in Hout. subst added. exact Hagg.
    + eexists [], _. split; [reflexivity | left; reflexivity].
Qed.

(** Witness for C10: the cursor on [foo(1, 2)], the strategy called with
    all four arguments. *)
Lemma getDefinitionsFromLsp_final_read_witness :
  getDefinitionsFromLspWith env strategyGivenAll "main.ts" mainText 2 ide start
  = (Returned (scoreResults [withContents fooDef fooText]),
     mkRun 7 []
       [CallGetAst "main.ts" mainText; CallGetTreePathAtCursor 2;
        CallExecuteGotoProvider (GotoInput.mk "main.ts" 0 0 executeDefinitionProvider);
        readOf (withContents fooDef fooText);
        CallCrawlTypes (withContents fooDef fooText);
        readOf (withContents fooDef fooText);
        readOf (withContents fooDef fooText)])
  /\ Aggregated strategyGivenAll "main.ts"
       (rev [Tree.rootNode mainTree; fooCall; leaf "identifier" 0 0 0 3 0 "foo"])
       (mkRun 2 [] ([] ++ [CallGetAst "main.ts" mainText; CallGetTreePathAtCursor 2]))
       (map unscored (scoreResults [withContents fooDef fooText]))
       (mkRun 7 []
          [CallGetAst "main.ts" mainText; CallGetTreePathAtCursor 2;
           CallExecuteGotoProvider (GotoInput.mk "main.ts" 0 0 executeDefinitionProvider);
           readOf (withContents fooDef fooText);
           CallCrawlTypes (withContents fooDef fooText);
           readOf (withContents fooDef fooText);
           readOf (withContents fooDef fooText)]).
Proof.
  exact (proj1 (proj2 (proj2 (getDefinitionsFromLsp_final_read nat env
                                strategyGivenAll "main.ts" mainText 2 ide start)))
           mainTree [Tree.rootNode mainTree; fooCall; leaf "identifier" 0 0 0 3 0 "foo"]
           1 2 (scoreResults [withContents fooDef fooText])
           (mkRun 7 []
              [CallGetAst "main.ts" mainText; CallGetTreePathAtCursor 2;
               CallExecuteGotoProvider
                 (GotoInput.mk "main.ts" 0 0 executeDefinitionProvider);
               readOf (withContents fooDef fooText);
               CallCrawlTypes (withContents fooDef fooText);
               readOf (withContents fooDef fooText);
               readOf (withContents fooDef fooText)])
           eq_refl eq_refl eq_refl).
Defined.


(** X17 (a re-read that fails): the re-read of a list of definitions
    makes one read per definition, in the order of the list and each of
    the definition's own range, also when some of the reads fail; it
    returns exactly when none of them failed. *)
Theorem reread_all_reads :
  forall (W : Type) (ide : IDE W) (defs : list RangeInFileWithContents.t) (r : Run W),
  exists new,
    calls (snd (promiseAll (reread ide) defs r)) = calls r ++ new
    /\ map readTarget new = map (fun def => Some (locationOf def)) defs
    /\ ((exists fresh, fst (promiseAll (reread ide) defs r) = Returned fresh)
        <-> existsb isFailedRead new = false).
Proof.
  intros W ide defs. induction defs as [|def rest IH]; intros r.
  - exists []. simpl. rewrite app_nil_r. repeat split. now exists [].
  - pose proof (reread_run ide def r) as Hrun. simpl in Hrun.
    destruct (readRangeInFile ide _ _ (world r)) as [[text|e] w].
    + rewrite (promiseAll_cons_returned _ _ _ _ _ _ Hrun). unfold bind.
      destruct (IH (mkRun w (console r)
                      (calls r ++ [CallReadRangeInFile
                                     (RangeInFileWithContents.filepath def)
                                     (RangeInFileWithContents.range def)
                                     (Returned text)])))
        as [new [Hcalls [Htargets Hiff]]].
      destruct (promiseAll (reread ide) rest _) as [[fresh|e] r2];
        simpl in Hcalls, Hiff |- *;
        (eexists (_ :: new); split; [now rewrite Hcalls, <- app_assoc|];
         split; [simpl; now rewrite Htargets|]).
      * split; [intros _; apply Hiff; now exists fresh | intros _; now eexists].
      * split; [intros [fresh H]; discriminate H|].
        intros H. apply Hiff in H. destruct H as [fresh H]. discriminate H.
    + rewrite (promiseAll_cons_thrown _ _ _ _ _ _ Hrun).
      destruct (IH (mkRun w (console r)
                      (calls r ++ [CallReadRangeInFile
                                     (RangeInFileWithContents.filepath def)
                                     (RangeInFileWithContents.range def)
                                     (Thrown e)])))
        as [new [Hcalls [Htargets _]]].
      simpl in Hcalls |- *.
      eexists (_ :: new). split; [now rewrite Hcalls, <- app_assoc|].
      split; [simpl; now rewrite Htargets|].
      split; [intros [fresh H]; discriminate H | discriminate].
Qed.
